(** * ChatFlow: a shallow embedding of the chat orchestration and of the
      inference responder

    The development follows the two services of the repository:

    - [backend/chat] (Django REST framework): models.py, serializers.py and
      views.py, embedded in [Module Backend];
    - [ai-service/main.py] (FastAPI): the [AIService] class, embedded in
      [Module AIService].

    Python values are modelled as follows.  Strings are [string]; one
    [ascii] stands for one character of a Python [str].  Integers are [Z].
    Wall-clock readings ([time.time()], [timezone.now()]) are [Z]
    microseconds since the epoch, read from an oracle [clock : nat -> Z]
    indexed by the number of readings made so far.  [uuid.uuid4()] is an
    oracle [uuid4 : nat -> string] (the textual form of the n-th draw).
    The temperature, a Python float, is a rational [Q].  Database tables are
    lists of rows in insertion order; queries are [filter], updates are
    [map].  Exceptions are explicit: effectful code runs in a state monad
    whose result is either [Returns a] or [Raises e], and the state reached
    when an exception is raised is kept (nothing is rolled back). *)

From Stdlib Require Import ZArith QArith String Ascii DecimalString List Lia.
From Stdlib Require Import Sorted.
From stdpp Require Import base list strings gmap.

(** ** Fragments of the Python runtime used by the two services *)

Module Py.

(** [str.isspace] on the characters below 256. *)
Definition is_space (c : ascii) : bool :=
  let n := nat_of_ascii c in
  ((9 <=? n) && (n <=? 13)) || ((28 <=? n) && (n <=? 32))
  || (n =? 133) || (n =? 160).

Fixpoint lstrip (s : string) : string :=
  match s with
  | EmptyString => EmptyString
  | String c s' => if is_space c then lstrip s' else s
  end.

Fixpoint rstrip (s : string) : string :=
  match s with
  | EmptyString => EmptyString
  | String c s' =>
      match rstrip s' with
      | EmptyString => if is_space c then EmptyString else String c EmptyString
      | r => String c r
      end
  end.

(** [s.strip()] *)
Definition strip (s : string) : string := lstrip (rstrip s).

(** [s.split()]: the maximal runs of characters that are not white space. *)
Fixpoint split (s : string) : list string :=
  match s with
  | EmptyString => []
  | String c s' =>
      if is_space c then split s'
      else
        match s' with
        | EmptyString => [String c EmptyString]
        | String c' _ =>
            if is_space c' then String c EmptyString :: split s'
            else
              match split s' with
              | w :: ws => String c w :: ws
              | [] => [String c EmptyString]
              end
        end
  end.

(** [len(s)] *)
Definition len (s : string) : nat := String.length s.

(** The start (or stop) index of a slice, clamped as Python does. *)
Definition clamp {A} (i : Z) (l : list A) : nat :=
  let n := Z.of_nat (length l) in
  Z.to_nat (if (i <? 0)%Z then Z.max (n + i) 0 else Z.min i n).

(** [l[i:]] *)
Definition slice_from {A} (i : Z) (l : list A) : list A :=
  drop (clamp i l) l.

(** [l[:j]] *)
Definition slice_to {A} (j : Z) (l : list A) : list A :=
  take (clamp j l) l.

(** [s[:j]] for a string and [0 <= j]. *)
Definition str_slice_to (j : nat) (s : string) : string := substring 0 j s.

(** [str(n)] for an integer. *)
Definition str_int (n : Z) : string := NilZero.string_of_int (Z.to_int n).

(** [int(x)] truncates towards zero; [int((t1 - t0) * 1000)] for readings
    in seconds is the truncated quotient by 1000 of their difference in
    microseconds. *)
Definition elapsed_ms (t0 t1 : Z) : Z := Z.quot (t1 - t0) 1000.

(** The newline character of ["\n"]. *)
Definition nl : string := String (ascii_of_nat 10) EmptyString.

(** Exceptions that the embedded code raises or receives. *)
Inductive exn : Type :=
  | Exception (msg : string)
  | KeyError (key : string)
  | Http404 (msg : string).

(** [str(e)] *)
Definition str (e : exn) : string :=
  match e with
  | Exception msg => msg
  | KeyError key => "'" +:+ key +:+ "'"
  | Http404 msg => msg
  end.

Inductive outcome (A : Type) : Type :=
  | Returns (a : A)
  | Raises (e : exn).
Arguments Returns {A} a.
Arguments Raises {A} e.

(** Computations over a state [S] that may raise. *)
Definition M (S A : Type) : Type := S -> outcome A * S.

Definition raise {S A} (e : exn) : M S A := fun s => (Raises e, s).
Definition get {S} : M S S := fun s => (Returns s, s).
Definition modify {S} (f : S -> S) : M S unit := fun s => (Returns tt, f s).

(** [try: body except Exception as e: handler e] *)
Definition try_except {S A} (body : M S A) (handler : exn -> M S A) : M S A :=
  fun s =>
    match body s with
    | (Returns a, s') => (Returns a, s')
    | (Raises e, s') => handler e s'
    end.

(** Lifting the value of a call that may have raised. *)
Definition lift {S A} (o : outcome A) : M S A := fun s => (o, s).

End Py.

Import Py.

Global Instance M_ret {S} : MRet (M S) :=
  fun A a s => (Returns a, s).

Global Instance M_bind {S} : MBind (M S) :=
  fun A B f m s =>
    match m s with
    | (Returns a, s') => f a s'
    | (Raises e, s') => (Raises e, s')
    end.

(** ** The inference responder: ai-service/main.py *)

Module AIService.

(** [class ChatMessage(BaseModel)] *)
Module ChatMessage.
Record t : Type := mk { content : string; role : string }.
End ChatMessage.

(** The dictionary returned by [generate_response], from which the
    endpoint builds its [ChatResponse]. *)
Module ChatResponse.
Record t : Type := mk {
    content : string;
    tokens_used : Z;
    model : string;
    response_time_ms : Z
  }.
End ChatResponse.

(** [genai.types.GenerationConfig] *)
Module GenerationConfig.
Record t : Type := mk {
    temperature : Q;
    max_output_tokens : Z;
    top_p : Q;
    top_k : Z
  }.
End GenerationConfig.

(** The configured model: [generate_content(context, generation_config)]
    followed by [response.text]; either step may raise. *)
Definition GenerativeModel : Type :=
  string -> GenerationConfig.t -> outcome string.

(** [class AIService]: [self.model_name] and [self.model] ([None] when no
    API key is present or the model could not be initialised). *)
Record t : Type := mk {
    model_name : string;
    model : option GenerativeModel
  }.

(** The state of the service is the number of clock readings made. *)
Section Service.

Variable clock : nat -> Z.

(** [time.time()] *)
Definition time_time : M nat Z :=
  fun n => (Returns (clock n), S n).

Definition role_label (msg : ChatMessage.t) : string :=
  if String.eqb (ChatMessage.role msg) "user" then "Human" else "Assistant".

Definition history_line (msg : ChatMessage.t) : string :=
  role_label msg +:+ ": " +:+ ChatMessage.content msg +:+ nl.

Definition preamble : list string :=
  [ "You are a helpful AI assistant in a chat platform. ";
    "Provide clear, helpful, and engaging responses. ";
    "Be concise but informative." +:+ nl +:+ nl ].

Definition current_turn (current_message : string) : string :=
  "Human: " +:+ current_message +:+ nl +:+ "Assistant:".

(** [AIService._prepare_context] *)
Definition _prepare_context
    (conversation_history : list ChatMessage.t) (current_message : string)
    : string :=
  let context_parts := preamble in
  let context_parts :=
    match conversation_history with
    | [] => context_parts
    | _ :: _ =>
        context_parts
          ++ ["Previous conversation:" +:+ nl]
          ++ map history_line (slice_from (-10) conversation_history)
          ++ [nl]
    end in
  let context_parts := context_parts ++ [current_turn current_message] in
  String.concat "" context_parts.

Definition mock_responses (message : string) : list string :=
  [ "I'm a mock AI assistant. To get real responses, please configure your GEMINI_API_KEY.";
    "This is a demo response from the AI service. The system is working correctly!";
    "Hello! I'm responding from the AI microservice. Please set up Gemini API for real AI responses.";
    "You said: '" +:+ message +:+ "'. I'm a placeholder response until Gemini API is configured." ].

(** [mock_responses[response_index]]; the index is always in range. *)
Definition index {A} (l : list A) (i : nat) : M nat A :=
  match l !! i with
  | Some x => mret x
  | None => raise (Exception "list index out of range")
  end.

(** [AIService._generate_mock_response] *)
Definition _generate_mock_response (message : string) (start_time : Z)
    : M nat ChatResponse.t :=
  let mock_responses := mock_responses message in
  let response_index := (len message) mod (length mock_responses) in
  response_content ← index mock_responses response_index;
  now ← time_time;
  let response_time_ms := elapsed_ms start_time now in
  mret (ChatResponse.mk
          response_content
          (Z.of_nat (length (split response_content))
           + Z.of_nat (length (split message)))
          "mock-model"
          response_time_ms).

(** [AIService._generate_error_response] *)
Definition _generate_error_response (self : t) (error : string) (start_time : Z)
    : M nat ChatResponse.t :=
  now ← time_time;
  let response_time_ms := elapsed_ms start_time now in
  mret (ChatResponse.mk
          ("I apologize, but I encountered an error: " +:+ error
           +:+ ". Please try again later.")
          20
          (if String.eqb (model_name self) "" then "error-model"
           else model_name self)
          response_time_ms).

(** [AIService.generate_response] *)
Definition generate_response (self : t) (message : string)
    (conversation_history : list ChatMessage.t)
    (temperature : Q) (max_tokens : Z) : M nat ChatResponse.t :=
  start_time ← time_time;
  try_except
    (match model self with
     | None => _generate_mock_response message start_time
     | Some generate_content =>
         let context := _prepare_context conversation_history message in
         let generation_config :=
           GenerationConfig.mk temperature max_tokens (8 # 10) 40 in
         text ← lift (generate_content context generation_config);
         let tokens_used :=
           (Z.of_nat (length (split text))
            + Z.of_nat (length (split message)))%Z in
         now ← time_time;
         let response_time_ms := elapsed_ms start_time now in
         mret (ChatResponse.mk text tokens_used (model_name self)
                 response_time_ms)
     end)
    (fun e => _generate_error_response self (str e) start_time).

End Service.

End AIService.


(** ** The chat backend: backend/chat *)

Module Backend.

(** *** models.py *)

Module User.
Record t : Type := mk { id : string; username : string }.
End User.

Module Conversation.
Record t : Type := mk {
  id : string;
  user : option string;
  guest_session_id : option string;
  title : string;
  created_at : Z;
  updated_at : Z
}.
Definition set_updated_at (now : Z) (c : t) : t :=
  mk (id c) (user c) (guest_session_id c) (title c) (created_at c) now.
End Conversation.

(** Values stored in [Message.metadata]. *)
Inductive json : Type :=
| JInt (n : Z)
| JFloat (q : Q)
| JStr (s : string).

Module Message.
Record t : Type := mk {
  id : string;
  conversation : string;
  content : string;
  role : string;
  metadata : list (string * json);
  created_at : Z
}.
Definition set_created_at (now : Z) (m : t) : t :=
  mk (id m) (conversation m) (content m) (role m) (metadata m) now.
End Message.

Module APIUsage.
Record t : Type := mk {
  id : string;
  user : option string;
  guest_session_id : option string;
  endpoint : string;
  tokens_used : Z;
  response_time_ms : option Z;
  status_code : option Z;
  created_at : Z
}.
End APIUsage.

(** [request.session]: the session key and the session dictionary. *)
Module Session.
Record t : Type := mk {
  session_key : option string;
  data : gmap string string
}.
End Session.

(** The persistent state seen by a request: the three tables, the session
    of the caller, and how many clock readings and random draws were made. *)
Record State : Type := mkState {
  tbl_conversations : list Conversation.t;
  tbl_messages : list Message.t;
  tbl_api_usage : list APIUsage.t;
  session : Session.t;
  ticks : nat;
  draws : nat
}.

Definition set_conversations (f : list Conversation.t -> list Conversation.t)
    (st : State) : State :=
  mkState (f (tbl_conversations st)) (tbl_messages st) (tbl_api_usage st)
    (session st) (ticks st) (draws st).

Definition set_messages (f : list Message.t -> list Message.t)
    (st : State) : State :=
  mkState (tbl_conversations st) (f (tbl_messages st)) (tbl_api_usage st)
    (session st) (ticks st) (draws st).

Definition set_api_usage (f : list APIUsage.t -> list APIUsage.t)
    (st : State) : State :=
  mkState (tbl_conversations st) (tbl_messages st) (f (tbl_api_usage st))
    (session st) (ticks st) (draws st).

Definition set_session (s : Session.t) (st : State) : State :=
  mkState (tbl_conversations st) (tbl_messages st) (tbl_api_usage st)
    s (ticks st) (draws st).

Definition set_ticks (n : nat) (st : State) : State :=
  mkState (tbl_conversations st) (tbl_messages st) (tbl_api_usage st)
    (session st) n (draws st).

Definition set_draws (n : nat) (st : State) : State :=
  mkState (tbl_conversations st) (tbl_messages st) (tbl_api_usage st)
    (session st) (ticks st) n.

(** [ORDER BY key], stable: rows with equal keys keep their insertion order. *)
Fixpoint insert_by {A} (key : A -> Z) (x : A) (l : list A) : list A :=
  match l with
  | [] => [x]
  | y :: l' => if (key x <=? key y)%Z then x :: l else y :: insert_by key x l'
  end.

Fixpoint order_by {A} (key : A -> Z) (l : list A) : list A :=
  match l with
  | [] => []
  | x :: l' => insert_by key x (order_by key l')
  end.

(** [conversation.messages]: the rows whose foreign key is the conversation. *)
Definition related_messages (conversation_id : string) (st : State)
    : list Message.t :=
  filter (fun m => Message.conversation m = conversation_id) (tbl_messages st).

(** *** serializers.py *)

(** The body of a chat request; [None] is an absent key. *)
Module ChatRequest.
Record t : Type := mk {
  message : option string;
  conversation_id : option string;
  temperature : option Q;
  max_tokens : option Z
}.
End ChatRequest.

Module ValidatedData.
Record t : Type := mk {
  message : string;
  conversation_id : option string;
  temperature : Q;
  max_tokens : Z
}.
End ValidatedData.

Module ChatRequestSerializer.

(** [validate_message] *)
Definition validate_message (value : string) : list string + string :=
  if String.eqb (strip value) "" then inl ["Message cannot be empty"]
  else inr (strip value).

Definition has_null (s : string) : bool :=
  existsb (fun c => Ascii.eqb c Ascii.zero) (list_ascii_of_string s).

(** [message = serializers.CharField(max_length=2000)]: the field is
    required, white space is trimmed before the length is checked, a blank
    value is refused, and then [validate_message] runs. *)
Definition message_field (data : option string) : list string + string :=
  match data with
  | None => inl ["This field is required."]
  | Some raw =>
      if String.eqb (strip raw) "" then inl ["This field may not be blank."]
      else
        let value := strip raw in
        let errors :=
          (if 2000 <? len value
           then ["Ensure this field has no more than 2000 characters."]
           else [])
          ++ (if has_null value then ["Null characters are not allowed."]
              else []) in
        match errors with
        | [] => validate_message value
        | _ :: _ => inl errors
        end
  end.

(** [temperature = serializers.FloatField(min_value=0.0, max_value=2.0,
    default=0.7)] *)
Definition temperature_field (data : option Q) : list string + Q :=
  match data with
  | None => inr (7 # 10)
  | Some value =>
      let errors :=
        (if Qle_bool value 2 then []
         else ["Ensure this value is less than or equal to 2.0."])
        ++ (if Qle_bool 0 value then []
            else ["Ensure this value is greater than or equal to 0.0."]) in
      match errors with
      | [] => inr value
      | _ :: _ => inl errors
      end
  end.

(** [max_tokens = serializers.IntegerField(min_value=1, max_value=4000,
    default=1000)] *)
Definition max_tokens_field (data : option Z) : list string + Z :=
  match data with
  | None => inr 1000%Z
  | Some value =>
      let errors :=
        (if (value <=? 4000)%Z then []
         else ["Ensure this value is less than or equal to 4000."])
        ++ (if (1 <=? value)%Z then []
            else ["Ensure this value is greater than or equal to 1."]) in
      match errors with
      | [] => inr value
      | _ :: _ => inl errors
      end
  end.

Definition field_errors {A} (name : string) (r : list string + A)
    : list (string * list string) :=
  match r with
  | inl errors => [(name, errors)]
  | inr _ => []
  end.

(** [serializer.is_valid()]: every field is validated and the errors are
    collected per field; [validated_data] exists when there is none. *)
Definition is_valid (data : ChatRequest.t)
    : list (string * list string) + ValidatedData.t :=
  let message := message_field (ChatRequest.message data) in
  let temperature := temperature_field (ChatRequest.temperature data) in
  let max_tokens := max_tokens_field (ChatRequest.max_tokens data) in
  match message, temperature, max_tokens with
  | inr m, inr t, inr k =>
      inr (ValidatedData.mk m (ChatRequest.conversation_id data) t k)
  | _, _, _ =>
      inl (field_errors "message" message
           ++ field_errors "temperature" temperature
           ++ field_errors "max_tokens" max_tokens)
  end.

End ChatRequestSerializer.

(** *** views.py *)

(** One entry of [values('content', 'role')]. *)
Module HistoryEntry.
Record t : Type := mk { content : string; role : string }.
End HistoryEntry.

(** The JSON body posted to the AI service. *)
Module ChatPayload.
Record t : Type := mk {
  message : string;
  conversation_history : list HistoryEntry.t;
  temperature : Q;
  max_tokens : Z
}.
End ChatPayload.

(** The keys of the decoded reply that the view reads; [None] is an absent
    key. *)
Module AIResponse.
Record t : Type := mk {
  content : option string;
  tokens_used : option Z;
  model : option string
}.
End AIResponse.

(** What [requests.post] does: it raises (time-out, transport error), or it
    returns a response with its status, its text and the result of
    [response.json()], which raises on a body that is not JSON. *)
Inductive HttpOutcome : Type :=
| Failed (e : exn)
| Responded (status_code : Z) (text : string) (json : outcome AIResponse.t).

(** [request]: the authenticated user, if any, and the request body. *)
Module Request.
Record t : Type := mk { user : option User.t; data : ChatRequest.t }.
End Request.

(** The data of the successful chat response. *)
Module ChatResult.
Record t : Type := mk {
  conversation_id : string;
  user_message : Message.t;
  assistant_message : Message.t;
  tokens_used : Z;
  response_time_ms : Z;
  is_guest : bool
}.
End ChatResult.

Inductive body : Type :=
| FieldErrors (errors : list (string * list string))
| ErrorBody (error : string)
| DetailBody (detail : string)
| ChatBody (result : ChatResult.t)
| MessagesBody (messages : list Message.t)
| ConversationBody (conversation : Conversation.t) (messages : list Message.t).

(** [Response(data, status=...)] *)
Module Response.
Record t : Type := mk { data : body; status_code : Z }.
End Response.

Section Views.

(** The n-th reading of the wall clock, in microseconds. *)
Variable clock : nat -> Z.
(** The text of the n-th random UUID, and the n-th random session key. *)
Variable uuid4 : nat -> string.
Variable new_session_key : nat -> string.
(** The AI service as seen through [requests.post]. *)
Variable post : ChatPayload.t -> HttpOutcome.

(** [time.time()] and [timezone.now()] *)
Definition now : M State Z :=
  fun st => (Returns (clock (ticks st)), set_ticks (S (ticks st)) st).

(** [str(uuid.uuid4())] *)
Definition draw_uuid : M State string :=
  fun st => (Returns (uuid4 (draws st)), set_draws (S (draws st)) st).

(** [request.session.create()] *)
Definition session_create : M State unit :=
  fun st =>
    (Returns tt,
     set_draws (S (draws st))
       (set_session
          (Session.mk (Some (new_session_key (draws st)))
             (Session.data (session st)))
          st)).

(** Truth value of an optional string: [None] and [''] are false. *)
Definition truthy (o : option string) : bool :=
  match o with
  | None => false
  | Some s => negb (String.eqb s "")
  end.

(** [ConversationViewSet.get_or_create_guest_session] *)
Definition get_or_create_guest_session : M State string :=
  st ← get;
  (if truthy (Session.session_key (session st)) then mret tt
   else session_create);;
  st ← get;
  let session_id := Session.data (session st) !! "guest_session_id" in
  if truthy session_id then mret (default "" session_id)
  else
    session_id ← draw_uuid;
    modify (fun st =>
              set_session
                (Session.mk (Session.session_key (session st))
                   (<["guest_session_id" := session_id]>
                      (Session.data (session st))))
                st);;
    mret session_id.

(** [Conversation.objects.create(title=..., user=... | guest_session_id=...)]:
    the key is drawn when the instance is built, [created_at] (auto_now_add)
    and [updated_at] (auto_now) are read when it is saved. *)
Definition Conversation_objects_create (title : option string)
    (user : option User.t) (guest_session_id : option string)
    : M State Conversation.t :=
  id ← draw_uuid;
  created_at ← now;
  updated_at ← now;
  let c :=
    Conversation.mk id (User.id <$> user) guest_session_id
      (default "New Conversation" title) created_at updated_at in
  modify (set_conversations (fun rows => rows ++ [c]));;
  mret c.

(** [Message.save] of a new instance: the row is inserted with its
    [created_at] (auto_now_add), then the parent conversation is saved with
    [update_fields=['updated_at']]; [updated_at] is an auto_now field, so
    the value written is the reading made by that save.  The foreign key
    must refer to a stored conversation. *)
Definition Message_save (self : Message.t) : M State Message.t :=
  st ← get;
  if existsb (fun c => String.eqb (Conversation.id c) (Message.conversation self))
       (tbl_conversations st)
  then
    created_at ← now;
    let self := Message.set_created_at created_at self in
    modify (set_messages (fun rows => rows ++ [self]));;
    _ ← now;
    updated_at ← now;
    modify (set_conversations
              (map (fun c =>
                      if String.eqb (Conversation.id c) (Message.conversation self)
                      then Conversation.set_updated_at updated_at c
                      else c)));;
    mret self
  else raise (Exception "IntegrityError: foreign key constraint failed").

(** [Message.objects.create(conversation=..., content=..., role=...,
    metadata=...)] *)
Definition Message_objects_create (conversation : Conversation.t)
    (content role : string) (metadata : list (string * json))
    : M State Message.t :=
  id ← draw_uuid;
  Message_save
    (Message.mk id (Conversation.id conversation) content role metadata 0).

(** [APIUsage.objects.create] with the entries of [usage_data]. *)
Definition APIUsage_objects_create (user : option User.t)
    (guest_session_id : option string) (endpoint : string) (tokens_used : Z)
    (response_time_ms status_code : Z) : M State APIUsage.t :=
  id ← draw_uuid;
  created_at ← now;
  let u :=
    APIUsage.mk id (User.id <$> user) guest_session_id endpoint tokens_used
      (Some response_time_ms) (Some status_code) created_at in
  modify (set_api_usage (fun rows => rows ++ [u]));;
  mret u.

(** [get_object_or_404(queryset, ...)]: the row selected by the lookup, the
    identifier being the primary key. *)
Definition get_object_or_404 (queryset : list Conversation.t)
    (lookup : Conversation.t -> bool) : M State Conversation.t :=
  match filter (fun c => lookup c = true) queryset with
  | c :: _ => mret c
  | [] => raise (Http404 "No Conversation matches the given query.")
  end.

Definition owned_by_user (u : User.t) (c : Conversation.t) : bool :=
  bool_decide (Conversation.user c = Some (User.id u)).

Definition owned_by_guest (session_id : string) (c : Conversation.t) : bool :=
  bool_decide (Conversation.guest_session_id c = Some session_id).

Definition has_id (pk : string) (c : Conversation.t) : bool :=
  String.eqb (Conversation.id c) pk.

(** [ConversationViewSet.get_queryset] *)
Definition get_queryset (request : Request.t) : M State (list Conversation.t) :=
  match Request.user request with
  | None =>
      session_id ← get_or_create_guest_session;
      st ← get;
      mret (filter (fun c => owned_by_guest session_id c = true)
              (tbl_conversations st))
  | Some u =>
      st ← get;
      mret (filter (fun c => owned_by_user u c = true) (tbl_conversations st))
  end.

(** [self.get_object()] of the generic view set. *)
Definition get_object (request : Request.t) (pk : string)
    : M State Conversation.t :=
  queryset ← get_queryset request;
  get_object_or_404 queryset (has_id pk).

(** [ConversationViewSet.perform_create]; [title] is the validated title of
    the serializer, if the caller gave one. *)
Definition perform_create (request : Request.t) (title : option string)
    : M State Conversation.t :=
  match Request.user request with
  | Some u => Conversation_objects_create title (Some u) None
  | None =>
      session_id ← get_or_create_guest_session;
      Conversation_objects_create title None (Some session_id)
  end.

(** [conversation.messages.all()], in the default ordering of [Message]. *)
Definition messages_all (conversation : Conversation.t) (st : State)
    : list Message.t :=
  order_by Message.created_at
    (related_messages (Conversation.id conversation) st).

(** [ConversationViewSet.messages] *)
Definition messages (request : Request.t) (pk : string) : M State Response.t :=
  conversation ← get_object request pk;
  st ← get;
  mret (Response.mk (MessagesBody (messages_all conversation st)) 200).

(** [ConversationViewSet.retrieve] of the generic view set. *)
Definition retrieve (request : Request.t) (pk : string) : M State Response.t :=
  conversation ← get_object request pk;
  st ← get;
  mret (Response.mk
          (ConversationBody conversation (messages_all conversation st)) 200).

(** The payload built by [_call_ai_service]. *)
Definition ai_payload (message : string) (conversation : Conversation.t)
    (temperature : Q) (max_tokens : Z) (st : State) : ChatPayload.t :=
  let messages :=
    map (fun m => HistoryEntry.mk (Message.content m) (Message.role m))
      (order_by Message.created_at
         (related_messages (Conversation.id conversation) st)) in
  ChatPayload.mk message (slice_to (-1) messages) temperature max_tokens.

(** The end of [_call_ai_service]: what the call yields for each behaviour
    of [requests.post]. *)
Definition ai_reply (response : HttpOutcome) : outcome AIResponse.t :=
  match response with
  | Failed e => Raises e
  | Responded status_code text json =>
      if (status_code =? 200)%Z then json
      else
        Raises (Exception ("AI service returned status " +:+ str_int status_code
                           +:+ ": " +:+ text))
  end.

(** [ConversationViewSet._call_ai_service] *)
Definition _call_ai_service (message : string) (conversation : Conversation.t)
    (temperature : Q) (max_tokens : Z) : M State AIResponse.t :=
  st ← get;
  let payload := ai_payload message conversation temperature max_tokens st in
  lift (ai_reply (post payload)).

(** [d[key]] on the decoded reply. *)
Definition getitem (key : string) (value : option string) : M State string :=
  match value with
  | Some v => mret v
  | None => raise (KeyError key)
  end.

(** [ConversationViewSet.chat], from the creation of the user message to
    the end (the statements after the conversation is resolved): the user
    message, then the [try] block and its [except] clause. *)
Definition chat_turn (start_time : Z) (user : option User.t)
    (guest_session_id : option string) (message_content : string)
    (temperature : Q) (max_tokens : Z) (conversation : Conversation.t)
    : M State Response.t :=
  user_message ← Message_objects_create conversation message_content "user" [];
  try_except
    (ai_response ← _call_ai_service message_content conversation
                      temperature max_tokens;
     content ← getitem "content" (AIResponse.content ai_response);
     assistant_message ←
       Message_objects_create conversation content "assistant"
         [ ("tokens_used", JInt (default 0%Z (AIResponse.tokens_used ai_response)));
           ("model", JStr (default "gemini" (AIResponse.model ai_response)));
           ("temperature", JFloat temperature);
           ("max_tokens", JInt max_tokens) ];
     end_time ← now;
     let response_time_ms := elapsed_ms start_time end_time in
     APIUsage_objects_create user guest_session_id "chat"
       (default 0%Z (AIResponse.tokens_used ai_response))
       response_time_ms 200;;
     mret (Response.mk
             (ChatBody
                (ChatResult.mk (Conversation.id conversation)
                   user_message assistant_message
                   (default 0%Z (AIResponse.tokens_used ai_response))
                   response_time_ms
                   (match user with None => true | Some _ => false end)))
             200))
    (fun e =>
       end_time ← now;
       let response_time_ms := elapsed_ms start_time end_time in
       APIUsage_objects_create user guest_session_id "chat" 0
         response_time_ms 500;;
       mret (Response.mk (ErrorBody ("AI service error: " +:+ str e)) 500)).

(** The title of a conversation created by its first message. *)
Definition title_of (message_content : string) : string :=
  if 50 <? len message_content
  then str_slice_to 50 message_content +:+ "..."
  else message_content.

(** [ConversationViewSet.chat]: validation, identification of the caller,
    resolution of the conversation, and then the turn. *)
Definition chat (request : Request.t) : M State Response.t :=
  start_time ← now;
  match ChatRequestSerializer.is_valid (Request.data request) with
  | inl errors => mret (Response.mk (FieldErrors errors) 400)
  | inr validated_data =>
      let message_content := ValidatedData.message validated_data in
      let conversation_id := ValidatedData.conversation_id validated_data in
      let temperature := ValidatedData.temperature validated_data in
      let max_tokens := ValidatedData.max_tokens validated_data in
      guest_session_id ←
        match Request.user request with
        | Some _ => mret None
        | None => session_id ← get_or_create_guest_session; mret (Some session_id)
        end;
      let user := Request.user request in
      conversation ←
        match conversation_id with
        | Some conversation_id =>
            st ← get;
            match user with
            | Some u =>
                get_object_or_404 (tbl_conversations st)
                  (fun c => has_id conversation_id c && owned_by_user u c)
            | None =>
                get_object_or_404 (tbl_conversations st)
                  (fun c => has_id conversation_id c
                            && bool_decide (Conversation.guest_session_id c
                                            = guest_session_id))
            end
        | None =>
            Conversation_objects_create (Some (title_of message_content))
              user guest_session_id
        end;
      chat_turn start_time user guest_session_id message_content temperature
        max_tokens conversation
  end.

(** The exception handler of the framework: [Http404] becomes a 404
    response, any other exception propagates. *)
Definition handle_exception (view : M State Response.t) : M State Response.t :=
  fun st =>
    match view st with
    | (Raises (Http404 msg), st') =>
        (Returns (Response.mk (DetailBody msg) 404), st')
    | r => r
    end.

End Views.

End Backend.

(** ** The wire between the two services *)

Module Wire.

(** An entry of [conversation_history] in the posted JSON, read by the
    responder as a [ChatMessage]. *)
Definition chat_message (e : Backend.HistoryEntry.t) : AIService.ChatMessage.t :=
  AIService.ChatMessage.mk
    (Backend.HistoryEntry.content e) (Backend.HistoryEntry.role e).

(** The history that the responder receives for a payload. *)
Definition conversation_history (payload : Backend.ChatPayload.t)
    : list AIService.ChatMessage.t :=
  map chat_message (Backend.ChatPayload.conversation_history payload).

End Wire.

(** ** Predicates used to state the properties *)

Module Props.

Import Backend.

(** A conversation has exactly one owner: a user, or a guest session id
    that is not the empty string. *)
Definition exactly_one_owner (c : Conversation.t) : Prop :=
  match Conversation.user c, Conversation.guest_session_id c with
  | Some _, None => True
  | None, Some session_id => session_id <> ""
  | _, _ => False
  end.

(** The fields of a conversation other than [updated_at]. *)
Definition frame (c : Conversation.t)
    : string * option string * option string * string * Z :=
  (Conversation.id c, Conversation.user c, Conversation.guest_session_id c,
   Conversation.title c, Conversation.created_at c).

Section Ownership.

Variable uuid4 : nat -> string.
Variable new_session_key : nat -> string.

(** The owner on whose behalf a request acts: the authenticated user, or
    else the guest session id that the views obtain for the session. *)
Definition requester (request : Request.t) (st : State)
    : option string * option string :=
  match Request.user request with
  | Some u => (Some (User.id u), None)
  | None =>
      match fst (get_or_create_guest_session uuid4 new_session_key st) with
      | Returns session_id => (None, Some session_id)
      | Raises _ => (None, None)
      end
  end.

(** The conversation belongs to that owner. *)
Definition owned_by (owner : option string * option string)
    (c : Conversation.t) : bool :=
  match owner with
  | (Some user_id, _) => bool_decide (Conversation.user c = Some user_id)
  | (None, Some session_id) =>
      bool_decide (Conversation.guest_session_id c = Some session_id)
  | (None, None) => false
  end.

(** The requester owns a stored conversation with this identifier. *)
Definition owns (request : Request.t) (st : State) (pk : string) : Prop :=
  exists c, c ∈ tbl_conversations st /\ Conversation.id c = pk /\
    owned_by (requester request st) c = true.

End Ownership.

(** What the [try] block of [chat] obtains from the service: the reply and
    its content, or the exception raised by [_call_ai_service] or by the
    access to the key 'content'. *)
Definition gateway_result (response : HttpOutcome)
    : outcome (string * AIResponse.t) :=
  match ai_reply response with
  | Returns r =>
      match AIResponse.content r with
      | Some content => Returns (content, r)
      | None => Raises (KeyError "content")
      end
  | Raises e => Raises e
  end.

(** The three tables of two states hold the same rows. *)
Definition same_tables (st st' : State) : Prop :=
  tbl_conversations st' = tbl_conversations st
  /\ tbl_messages st' = tbl_messages st
  /\ tbl_api_usage st' = tbl_api_usage st.

End Props.

(** ** Concrete oracles and states for the examples *)

Module Demo.

Import Backend.

Definition clock (n : nat) : Z := (1700000000000000 + 2500 * Z.of_nat n)%Z.

Fixpoint tally (n : nat) : string :=
  match n with
  | O => "#"
  | S n' => String "i" (tally n')
  end.

Definition uuid4 (n : nat) : string := tally n.
Definition new_session_key (n : nat) : string := "k" +:+ tally n.

Definition reply_ok : AIResponse.t :=
  AIResponse.mk (Some "Hi there!") (Some 12%Z) (Some "gemini-1.5-flash").

Definition post_ok (_ : ChatPayload.t) : HttpOutcome :=
  Responded 200 "" (Returns reply_ok).

Definition post_timeout (_ : ChatPayload.t) : HttpOutcome :=
  Failed (Exception "Read timed out. (read timeout=30)").

Definition post_503 (_ : ChatPayload.t) : HttpOutcome :=
  Responded 503 "Service Unavailable" (Raises (Exception "Expecting value")).

Definition anonymous : Session.t := Session.mk None ∅.

Definition empty : State := mkState [] [] [] anonymous 0 0.

Definition alice : User.t := User.mk "alice-id" "alice".
Definition bob : User.t := User.mk "bob-id" "bob".

Definition hello : ChatRequest.t :=
  ChatRequest.mk (Some "Hello") None None None.

Definition bobs_conversation : Conversation.t :=
  Conversation.mk "c-bob" (Some "bob-id") None "Bob's notes" 10 20.

Definition bobs_state : State :=
  mkState [bobs_conversation] [] [] anonymous 0 0.

(** Bob's conversation after a turn and a half. *)
Definition bobs_history : list Message.t :=
  [ Message.mk "m-1" "c-bob" "Hi" "user" [] 11;
    Message.mk "m-2" "c-bob" "Hello Bob" "assistant" [] 14;
    Message.mk "m-3" "c-bob" "What is Rocq?" "user" [] 17 ].

Definition bobs_busy_state : State :=
  mkState [bobs_conversation] bobs_history [] anonymous 0 0.

End Demo.

(** ** The rest of ai-service/main.py: start-up and the chat endpoint *)

Module AIEndpoint.

Import AIService.

(** [class ChatRequest(BaseModel)] *)
Module ChatRequest.
Record t : Type := mk {
  message : string;
  conversation_history : list ChatMessage.t;
  temperature : Q;
  max_tokens : Z
}.
End ChatRequest.

(** The constraints of the fields of [ChatRequest]: [min_length=1],
    [max_length=2000], [ge=0.0], [le=2.0], [ge=1], [le=4000]. *)
Definition valid (request : ChatRequest.t) : bool :=
  (1 <=? len (ChatRequest.message request))
  && (len (ChatRequest.message request) <=? 2000)
  && Qle_bool 0 (ChatRequest.temperature request)
  && Qle_bool (ChatRequest.temperature request) 2
  && (1 <=? ChatRequest.max_tokens request)%Z
  && (ChatRequest.max_tokens request <=? 4000)%Z.

(** What the route [POST /chat] answers: the [ChatResponse], the rejection
    of a body that does not satisfy [ChatRequest] (status 422), or the
    [HTTPException] raised by the endpoint, with its status and detail. *)
Inductive reply : Type :=
| Reply200 (response : ChatResponse.t)
| Reply422
| HTTPException (status_code : Z) (detail : string).

(** [AIService.__init__]: [GEMINI_API_KEY] is the environment variable,
    [new_model] is [genai.GenerativeModel], which may raise. *)
Definition __init__ (GEMINI_API_KEY : option string)
    (new_model : string -> outcome GenerativeModel) : AIService.t :=
  let model_name := "gemini-1.5-flash" in
  let model :=
    match GEMINI_API_KEY with
    | None => None
    | Some key =>
        if String.eqb key "" then None
        else
          match new_model model_name with
          | Returns m => Some m
          | Raises _ => None
          end
    end in
  AIService.mk model_name model.

Section Endpoint.

Variable clock : nat -> Z.

(** [chat_endpoint]: the [HTTPException] that the [except] clause raises is
    the reply of the route. *)
Definition chat_endpoint (request : ChatRequest.t) (ai_service : AIService.t)
    : M nat reply :=
  try_except
    (response ←
       generate_response clock ai_service
         (ChatRequest.message request)
         (ChatRequest.conversation_history request)
         (ChatRequest.temperature request)
         (ChatRequest.max_tokens request);
     mret (Reply200 response))
    (fun e =>
       mret (HTTPException 500 ("Internal server error: " +:+ str e))).

(** The route: the body is checked against [ChatRequest] before the
    endpoint runs. *)
Definition post_chat (request : ChatRequest.t) (ai_service : AIService.t)
    : M nat reply :=
  if valid request then chat_endpoint request ai_service
  else mret Reply422.

End Endpoint.

End AIEndpoint.

(** ** The rest of backend/chat: properties of the models, the role
    validator, and the read-only view sets *)

Module Reads.

Import Backend.

(** [Conversation.message_count] *)
Definition message_count (self : Conversation.t) (st : State) : nat :=
  length (related_messages (Conversation.id self) st).

(** [Conversation.last_message]: the first row in decreasing [created_at]. *)
Definition last_message (self : Conversation.t) (st : State)
    : option Message.t :=
  head (order_by (fun m => (- Message.created_at m)%Z)
          (related_messages (Conversation.id self) st)).

(** [MessageSerializer.validate_role] *)
Definition validate_role (value : string) : list string + string :=
  if String.eqb value "user" || String.eqb value "assistant"
     || String.eqb value "system"
  then inr value
  else inl ["Role must be 'user', 'assistant', or 'system'"].

(** The guest session id that the read-only view sets use: none without a
    session key, none without a stored id; nothing is created. *)
Definition stored_guest_session (st : State) : option string :=
  if truthy (Session.session_key (session st)) then
    let session_id := Session.data (session st) !! "guest_session_id" in
    if truthy session_id then session_id else None
  else None.

(** [MessageViewSet.get_queryset]: the messages whose conversation belongs
    to the caller, in the default ordering of [Message]. *)
Definition MessageViewSet_get_queryset (request : Request.t) (st : State)
    : list Message.t :=
  match Request.user request with
  | Some u =>
      order_by Message.created_at
        (filter (fun m =>
                   existsb (fun c => has_id (Message.conversation m) c
                                     && owned_by_user u c)
                     (tbl_conversations st) = true)
           (tbl_messages st))
  | None =>
      match stored_guest_session st with
      | None => []
      | Some session_id =>
          order_by Message.created_at
            (filter (fun m =>
                       existsb (fun c => has_id (Message.conversation m) c
                                         && owned_by_guest session_id c)
                         (tbl_conversations st) = true)
               (tbl_messages st))
      end
  end.

(** [APIUsageViewSet.get_queryset]: the usage records of the caller, most
    recent first. *)
Definition APIUsageViewSet_get_queryset (request : Request.t) (st : State)
    : list APIUsage.t :=
  match Request.user request with
  | Some u =>
      order_by (fun r => (- APIUsage.created_at r)%Z)
        (filter (fun r => APIUsage.user r = Some (User.id u))
           (tbl_api_usage st))
  | None =>
      match stored_guest_session st with
      | None => []
      | Some session_id =>
          order_by (fun r => (- APIUsage.created_at r)%Z)
            (filter (fun r => APIUsage.guest_session_id r = Some session_id)
               (tbl_api_usage st))
      end
  end.

(** [aggregate(total=Sum('tokens_used'))['total']]: [None] on no row. *)
Definition Sum_tokens_used (queryset : list APIUsage.t) : option Z :=
  match queryset with
  | [] => None
  | _ :: _ => Some (foldr (fun r acc => (APIUsage.tokens_used r + acc)%Z) 0%Z
                      queryset)
  end.

(** The data of the response of [stats]. *)
Module Stats.
Record t : Type := mk {
  total_requests : nat;
  total_tokens_used : Z;
  average_response_time_ms : Q;
  is_guest : bool
}.
End Stats.

Section Statistics.

(** The average as the database computes it, a float, over the response
    times that are not null; and [round(x, 2)]. *)
Variable Avg : list Z -> Q.
Variable round2 : Q -> Q.

(** [aggregate(avg=Avg('response_time_ms'))['avg']]: [None] when no row
    has a response time. *)
Definition Avg_response_time_ms (queryset : list APIUsage.t) : option Q :=
  match omap APIUsage.response_time_ms queryset with
  | [] => None
  | times => Some (Avg times)
  end.

(** [APIUsageViewSet.stats] *)
Definition stats (request : Request.t) (st : State) : Stats.t :=
  let queryset := APIUsageViewSet_get_queryset request st in
  let total_requests := length queryset in
  let total_tokens := default 0%Z (Sum_tokens_used queryset) in
  let avg_response_time := default 0%Q (Avg_response_time_ms queryset) in
  Stats.mk total_requests total_tokens (round2 avg_response_time)
    (match Request.user request with Some _ => false | None => true end).

End Statistics.

End Reads.

(** ** The backend served by the AI service *)

Module Deployment.

Import Backend.

Section Served.

(** The clock of the AI service, the service object, the number of
    readings its clock has made when the request arrives, and the text of
    the HTTP body for each answer. *)
Variable ai_clock : nat -> Z.
Variable ai_service : AIService.t.
Variable ai_ticks : nat.
Variable body_text : outcome AIEndpoint.reply -> string.

(** The posted JSON, read as a [ChatRequest]. *)
Definition request_of (payload : ChatPayload.t) : AIEndpoint.ChatRequest.t :=
  AIEndpoint.ChatRequest.mk
    (ChatPayload.message payload)
    (Wire.conversation_history payload)
    (ChatPayload.temperature payload)
    (ChatPayload.max_tokens payload).

(** The keys of a [ChatResponse] in the JSON of a 200 answer. *)
Definition json_of (response : AIService.ChatResponse.t) : AIResponse.t :=
  AIResponse.mk
    (Some (AIService.ChatResponse.content response))
    (Some (AIService.ChatResponse.tokens_used response))
    (Some (AIService.ChatResponse.model response)).

(** [requests.post] against the running service: the body of an error
    answer is a JSON object with the single key 'detail'. *)
Definition post (payload : ChatPayload.t) : HttpOutcome :=
  let answer :=
    fst (AIEndpoint.post_chat ai_clock (request_of payload) ai_service
           ai_ticks) in
  match answer with
  | Returns (AIEndpoint.Reply200 response) =>
      Responded 200 (body_text answer) (Returns (json_of response))
  | Returns AIEndpoint.Reply422 =>
      Responded 422 (body_text answer) (Returns (AIResponse.mk None None None))
  | Returns (AIEndpoint.HTTPException status_code _) =>
      Responded status_code (body_text answer)
        (Returns (AIResponse.mk None None None))
  | Raises _ =>
      Responded 500 (body_text answer) (Raises (Exception "Expecting value"))
  end.

End Served.

End Deployment.

(** ** Invariants of the tables *)

Module Invariants.

Import Backend.

(** Every message refers to a stored conversation. *)
Definition references_hold (st : State) : Prop :=
  Forall (fun m =>
            existsb (fun c => has_id (Message.conversation m) c)
              (tbl_conversations st) = true)
    (tbl_messages st).

(** No two conversations share an identifier. *)
Definition unique_ids (st : State) : Prop :=
  NoDup (map Conversation.id (tbl_conversations st)).

End Invariants.

(** * Properties *)

(** ** Running a computation *)

Section Run.

Context {S A B : Type}.

Lemma run_bind (m : M S A) (k : A -> M S B) (s : S) :
  (m ≫= k) s =
  match m s with
  | (Returns a, s') => k a s'
  | (Raises e, s') => (Raises e, s')
  end.
Proof. reflexivity. Qed.

Lemma run_ret (a : A) (s : S) : (mret a : M S A) s = (Returns a, s).
Proof. reflexivity. Qed.

Lemma run_try_returns (body : M S A) (handler : exn -> M S A) s a s' :
  body s = (Returns a, s') -> try_except body handler s = (Returns a, s').
Proof. intros H. unfold try_except. now rewrite H. Qed.

Lemma run_try_raises (body : M S A) (handler : exn -> M S A) s e s' :
  body s = (Raises e, s') -> try_except body handler s = handler e s'.
Proof. intros H. unfold try_except. now rewrite H. Qed.

End Run.

(** ** Slices *)

Section Slices.

Context {A : Type}.

Lemma slice_from_last (k : nat) (l : list A) :
  (0 < k)%nat -> slice_from (- Z.of_nat k) l = drop (length l - k) l.
Proof.
  intros Hk. unfold slice_from, clamp.
  replace (- Z.of_nat k <? 0)%Z with true by (symmetry; apply Z.ltb_lt; lia).
  f_equal. lia.
Qed.

Lemma slice_from_short (k : nat) (l : list A) :
  (0 < k)%nat -> (length l <= k)%nat -> slice_from (- Z.of_nat k) l = l.
Proof.
  intros Hk Hl. rewrite slice_from_last by assumption.
  replace (length l - k)%nat with 0%nat by lia. reflexivity.
Qed.

Lemma slice_from_length (k : nat) (l : list A) :
  (0 < k)%nat -> length (slice_from (- Z.of_nat k) l) = Nat.min k (length l).
Proof.
  intros Hk. rewrite slice_from_last by assumption.
  rewrite length_drop. lia.
Qed.

Lemma slice_to_drop_last (l : list A) (x : A) :
  slice_to (-1) (l ++ [x]) = l.
Proof.
  unfold slice_to, clamp. rewrite length_app. simpl.
  replace (Z.to_nat (Z.max (Z.of_nat (length l + 1) + -1) 0)) with (length l)
    by lia.
  rewrite take_app_le by lia. apply firstn_all.
Qed.

End Slices.

(** ** The inference responder *)

Module AIServiceFacts.

Import AIService.

Section Facts.

Variable clock : nat -> Z.

Lemma mock_index_in_range (message : string) :
  exists content,
    mock_responses message !! (len message mod 4)%nat = Some content.
Proof.
  assert (H : (len message mod 4 < 4)%nat) by (apply Nat.mod_upper_bound; lia).
  destruct (len message mod 4)%nat as [|[|[|[|k]]]]; simpl; eauto. lia.
Qed.

Lemma run_mock (message : string) (start_time : Z) (n : nat) content :
  mock_responses message !! (len message mod 4)%nat = Some content ->
  _generate_mock_response clock message start_time n =
  (Returns
     (ChatResponse.mk content
        (Z.of_nat (length (split content)) + Z.of_nat (length (split message)))
        "mock-model" (elapsed_ms start_time (clock n))),
   S n).
Proof.
  intros H. unfold _generate_mock_response.
  change (length (mock_responses message)) with 4%nat.
  rewrite run_bind. unfold index. rewrite H. reflexivity.
Qed.


(** C10.  Without a configured model the response is the mock response at
    index [len message mod 4], with model "mock-model" and a token count
    equal to the number of words of the response plus the number of words
    of the message; for "Hello" this is the response at index 1. *)
Theorem mock_response_selected_by_length
    (name message : string) (history : list ChatMessage.t)
    (temperature : Q) (max_tokens : Z) (n : nat) :
  (exists content : string,
      mock_responses message !! (len message mod 4)%nat = Some content
      /\ generate_response clock (mk name None) message history temperature
           max_tokens n
         = (Returns
              (ChatResponse.mk content
                 (Z.of_nat (length (split content))
                  + Z.of_nat (length (split message)))
                 "mock-model" (elapsed_ms (clock n) (clock (S n)))),
            S (S n)))
  /\ (len "Hello" mod 4)%nat = 1%nat
  /\ mock_responses "Hello" !! 1%nat
     = Some "This is a demo response from the AI service. The system is working correctly!"
  /\ generate_response clock (mk name None) "Hello" history temperature
       max_tokens n
     = (Returns
          (ChatResponse.mk
             "This is a demo response from the AI service. The system is working correctly!"
             (14 + 1) "mock-model" (elapsed_ms (clock n) (clock (S n)))),
        S (S n)).
Proof.
  assert (Hrun : forall msg content,
             mock_responses msg !! (len msg mod 4)%nat = Some content ->
             generate_response clock (mk name None) msg history temperature
               max_tokens n
             = (Returns
                  (ChatResponse.mk content
                     (Z.of_nat (length (split content))
                      + Z.of_nat (length (split msg)))
                     "mock-model" (elapsed_ms (clock n) (clock (S n)))),
                S (S n))).
  { intros msg content H. unfold generate_response. rewrite run_bind.
    unfold time_time at 1. apply run_try_returns. simpl model.
    apply run_mock. exact H. }
  split; [|split; [|split]].
  - destruct (mock_index_in_range message) as [content Hcontent].
    exists content. split; [exact Hcontent | apply Hrun, Hcontent].
  - reflexivity.
  - reflexivity.
  - apply (Hrun "Hello"). reflexivity.
Qed.

End Facts.

End AIServiceFacts.

(** ** The chat backend *)

Module BackendFacts.

Import Backend Props.

(** *** Ordering and filtering rows *)

Section Rows.

Context {A : Type} (key : A -> Z).

Lemma insert_by_last (x y : A) (l : list A) :
  (key x <= key y)%Z -> insert_by key x (l ++ [y]) = insert_by key x l ++ [y].
Proof.
  intros Hxy. induction l as [|z l IH]; simpl.
  - destruct (Z.leb_spec (key x) (key y)); [reflexivity | lia].
  - destruct (key x <=? key z)%Z; [reflexivity | now rewrite IH].
Qed.

Lemma order_by_last (l : list A) (y : A) :
  Forall (fun x => (key x <= key y)%Z) l ->
  order_by key (l ++ [y]) = order_by key l ++ [y].
Proof.
  induction 1 as [|x l Hx Hl IH]; simpl; [reflexivity|].
  rewrite IH. now apply insert_by_last.
Qed.

Lemma insert_by_elem (x y : A) (l : list A) :
  y ∈ insert_by key x l <-> y = x \/ y ∈ l.
Proof.
  induction l as [|z l IH]; simpl.
  - rewrite list_elem_of_singleton, elem_of_nil. tauto.
  - destruct (key x <=? key z)%Z.
    + rewrite elem_of_cons. tauto.
    + rewrite !elem_of_cons, IH. tauto.
Qed.

Lemma order_by_elem (y : A) (l : list A) : y ∈ order_by key l <-> y ∈ l.
Proof.
  induction l as [|x l IH]; simpl; [tauto|].
  rewrite insert_by_elem, elem_of_cons, IH. tauto.
Qed.

Lemma insert_by_length (x : A) (l : list A) :
  length (insert_by key x l) = S (length l).
Proof.
  induction l as [|z l IH]; simpl; [reflexivity|].
  destruct (key x <=? key z)%Z; simpl; [reflexivity | now rewrite IH].
Qed.

Lemma order_by_length (l : list A) : length (order_by key l) = length l.
Proof.
  induction l as [|x l IH]; simpl; [reflexivity|].
  now rewrite insert_by_length, IH.
Qed.

End Rows.

Section Facts.

Variable clock : nat -> Z.
Variable uuid4 : nat -> string.
Variable new_session_key : nat -> string.
Variable post : ChatPayload.t -> HttpOutcome.

Local Abbreviation get_or_create_guest_session :=
  (get_or_create_guest_session uuid4 new_session_key).
Local Abbreviation Conversation_objects_create :=
  (Conversation_objects_create clock uuid4).
Local Abbreviation Message_save := (Message_save clock).
Local Abbreviation Message_objects_create := (Message_objects_create clock uuid4).
Local Abbreviation APIUsage_objects_create := (APIUsage_objects_create clock uuid4).
Local Abbreviation chat := (chat clock uuid4 new_session_key post).
Local Abbreviation messages := (messages uuid4 new_session_key).
Local Abbreviation retrieve := (retrieve uuid4 new_session_key).
Local Abbreviation get_object := (get_object uuid4 new_session_key).
Local Abbreviation perform_create := (perform_create clock uuid4 new_session_key).

(** *** The primitives *)

Lemma truthy_some (s : string) : s <> "" -> truthy (Some s) = true.
Proof.
  intros H. simpl. destruct (String.eqb_spec s ""); [contradiction | reflexivity].
Qed.

Lemma truthy_inv (o : option string) :
  truthy o = true -> exists s, o = Some s /\ s <> "".
Proof.
  destruct o as [s|]; simpl; [|discriminate].
  destruct (String.eqb_spec s ""); [discriminate|]. eauto.
Qed.

(** The guest session id is returned, and drawn first when the session has
    none; the tables and the clock are untouched. *)
Lemma run_guest_session (st : State) :
  exists sid st',
    get_or_create_guest_session st = (Returns sid, st')
    /\ same_tables st st'
    /\ ticks st' = ticks st
    /\ (draws st <= draws st')%nat
    /\ Session.data (session st') !! "guest_session_id" = Some sid
    /\ (forall t,
          Session.data (session st) !! "guest_session_id" = Some t ->
          t <> "" ->
          sid = t /\ Session.data (session st') = Session.data (session st))
    /\ (truthy (Session.data (session st) !! "guest_session_id") = false ->
        exists k,
          (draws st <= k < draws st')%nat /\ sid = uuid4 k
          /\ Session.data (session st')
             = <["guest_session_id" := sid]> (Session.data (session st))).
Proof.
  unfold Backend.get_or_create_guest_session.
  rewrite run_bind. unfold get at 1. rewrite run_bind.
  destruct (truthy (Session.session_key (session st))) eqn:Hkey;
    [rewrite run_ret | unfold session_create]; rewrite run_bind; unfold get at 1;
    cbn [session set_session set_draws Session.data]; cbv zeta;
    destruct (Session.data (session st) !! "guest_session_id") as [t|] eqn:Hdata;
    unfold truthy;
    try destruct (String.eqb_spec t "") as [->|Hne];
    cbn; eexists _, _; (split; [reflexivity|]);
    cbn; unfold same_tables; cbn;
    repeat match goal with |- _ /\ _ => split end;
    try reflexivity; try lia;
    try (rewrite lookup_insert_eq; reflexivity);
    try (intros t' Ht' Hne'; congruence);
    try (intros _; eexists; split; [|split; reflexivity]; lia);
    try discriminate.
  all: try (intros t' Ht' Hne'; inversion Ht'; subst; auto).
  all: try (intros Hf; destruct (String.eqb_spec t ""); [contradiction | discriminate]).
  all: exact Hdata.
Qed.

Lemma run_create_conversation title user guest (st : State) :
  Conversation_objects_create title user guest st =
  (let c :=
     Conversation.mk (uuid4 (draws st)) (User.id <$> user) guest
       (default "New Conversation" title)
       (clock (ticks st)) (clock (S (ticks st))) in
   (Returns c,
    mkState (tbl_conversations st ++ [c]) (tbl_messages st) (tbl_api_usage st)
      (session st) (S (S (ticks st))) (S (draws st)))).
Proof. reflexivity. Qed.

Lemma run_create_usage user guest endpoint tokens ms code (st : State) :
  APIUsage_objects_create user guest endpoint tokens ms code st =
  (let u :=
     APIUsage.mk (uuid4 (draws st)) (User.id <$> user) guest endpoint tokens
       (Some ms) (Some code) (clock (ticks st)) in
   (Returns u,
    mkState (tbl_conversations st) (tbl_messages st) (tbl_api_usage st ++ [u])
      (session st) (S (ticks st)) (S (draws st)))).
Proof. reflexivity. Qed.

(** The update made by the save of the parent conversation. *)
Local Abbreviation touch pk now :=
  (map (fun c => if String.eqb (Conversation.id c) pk
                 then Conversation.set_updated_at now c else c)).

Lemma run_message_save (self : Message.t) (st : State) :
  existsb (fun c => String.eqb (Conversation.id c) (Message.conversation self))
    (tbl_conversations st) = true ->
  Message_save self st =
  (let m := Message.set_created_at (clock (ticks st)) self in
   (Returns m,
    mkState
      (touch (Message.conversation self) (clock (S (S (ticks st))))
         (tbl_conversations st))
      (tbl_messages st ++ [m]) (tbl_api_usage st)
      (session st) (S (S (S (ticks st)))) (draws st))).
Proof.
  intros Hfk. unfold Backend.Message_save. rewrite run_bind. unfold get at 1.
  rewrite Hfk. reflexivity.
Qed.

Lemma run_create_message conversation content role metadata (st : State) :
  existsb (fun c => String.eqb (Conversation.id c) (Conversation.id conversation))
    (tbl_conversations st) = true ->
  Message_objects_create conversation content role metadata st =
  (let m :=
     Message.mk (uuid4 (draws st)) (Conversation.id conversation) content role
       metadata (clock (ticks st)) in
   (Returns m,
    mkState
      (touch (Conversation.id conversation) (clock (S (S (ticks st))))
         (tbl_conversations st))
      (tbl_messages st ++ [m]) (tbl_api_usage st)
      (session st) (S (S (S (ticks st)))) (S (draws st)))).
Proof.
  intros Hfk. unfold Backend.Message_objects_create. rewrite run_bind.
  unfold draw_uuid at 1. rewrite run_message_save by exact Hfk. reflexivity.
Qed.

Lemma existsb_has_id (c : Conversation.t) (rows : list Conversation.t) :
  c ∈ rows ->
  existsb (fun c' => String.eqb (Conversation.id c') (Conversation.id c)) rows
  = true.
Proof.
  intros Hc. apply existsb_exists. exists c. split.
  - now apply list_elem_of_In.
  - apply String.eqb_refl.
Qed.

Lemma existsb_touch (pk pk' : string) (t : Z) (rows : list Conversation.t) :
  existsb (fun c => String.eqb (Conversation.id c) pk) (touch pk' t rows)
  = existsb (fun c => String.eqb (Conversation.id c) pk) rows.
Proof.
  induction rows as [|c rows IH]; simpl; [reflexivity|].
  rewrite IH. now destruct (String.eqb (Conversation.id c) pk').
Qed.

Lemma frame_touch (pk : string) (t : Z) (rows : list Conversation.t) :
  map frame (touch pk t rows) = map frame rows.
Proof.
  induction rows as [|c rows IH]; simpl; [reflexivity|].
  rewrite IH. now destruct (String.eqb (Conversation.id c) pk).
Qed.

(** *** The turn *)

Lemma run_chat_turn start_time user guest message temperature max_tokens
    (conversation : Conversation.t) (st : State) :
  existsb (fun c => String.eqb (Conversation.id c) (Conversation.id conversation))
    (tbl_conversations st) = true ->
  let pk := Conversation.id conversation in
  let um := Message.mk (uuid4 (draws st)) pk message "user" [] (clock (ticks st)) in
  let st1 :=
    mkState (touch pk (clock (2 + ticks st)) (tbl_conversations st))
      (tbl_messages st ++ [um]) (tbl_api_usage st) (session st)
      (3 + ticks st) (1 + draws st) in
  chat_turn clock uuid4 post start_time user guest message temperature
    max_tokens conversation st =
  match gateway_result (post (ai_payload message conversation temperature
                                max_tokens st1)) with
  | Returns (content, r) =>
      let tokens := default 0%Z (AIResponse.tokens_used r) in
      let am :=
        Message.mk (uuid4 (1 + draws st)) pk content "assistant"
          [ ("tokens_used", JInt tokens);
            ("model", JStr (default "gemini" (AIResponse.model r)));
            ("temperature", JFloat temperature);
            ("max_tokens", JInt max_tokens) ]
          (clock (3 + ticks st)) in
      let ms := elapsed_ms start_time (clock (6 + ticks st)) in
      let ur :=
        APIUsage.mk (uuid4 (2 + draws st)) (User.id <$> user) guest "chat"
          tokens (Some ms) (Some 200%Z) (clock (7 + ticks st)) in
      (Returns
         (Response.mk
            (ChatBody
               (ChatResult.mk pk um am tokens ms
                  (match user with None => true | Some _ => false end)))
            200),
       mkState
         (touch pk (clock (5 + ticks st)) (tbl_conversations st1))
         (tbl_messages st1 ++ [am]) (tbl_api_usage st1 ++ [ur]) (session st)
         (8 + ticks st) (3 + draws st))
  | Raises e =>
      let ms := elapsed_ms start_time (clock (3 + ticks st)) in
      let ur :=
        APIUsage.mk (uuid4 (1 + draws st)) (User.id <$> user) guest "chat"
          0 (Some ms) (Some 500%Z) (clock (4 + ticks st)) in
      (Returns
         (Response.mk (ErrorBody ("AI service error: " +:+ str e)) 500),
       mkState (tbl_conversations st1) (tbl_messages st1)
         (tbl_api_usage st1 ++ [ur]) (session st)
         (5 + ticks st) (2 + draws st))
  end.
Proof.
  intros Hfk pk um st1.
  unfold chat_turn. rewrite run_bind, run_create_message by exact Hfk.
  cbv zeta. fold pk. fold um.
  match goal with |- context [(Returns um, ?s)] => change s with st1 end.
  unfold try_except. rewrite run_bind.
  unfold _call_ai_service. rewrite run_bind. unfold get at 1.
  unfold gateway_result, lift.
  destruct (ai_reply _) as [r|e]; [|reflexivity].
  rewrite run_bind. destruct (AIResponse.content r) as [content|];
    [|reflexivity].
  unfold getitem. rewrite run_ret, run_bind.
  rewrite run_create_message
    by (subst st1; cbn [tbl_conversations]; rewrite existsb_touch; exact Hfk).
  reflexivity.
Qed.

(** *** Validation, identification and resolution *)

Lemma guest_session_ticks (n : nat) (st : State) :
  get_or_create_guest_session (set_ticks n st) =
  (let (r, st') := get_or_create_guest_session st in (r, set_ticks n st')).
Proof.
  unfold Backend.get_or_create_guest_session.
  rewrite !run_bind. unfold get at 1 3. rewrite !run_bind.
  cbn [session set_ticks].
  destruct (truthy (Session.session_key (session st)));
    [rewrite !run_ret | unfold session_create]; rewrite !run_bind;
    unfold get at 1 2; cbn [session set_session set_draws set_ticks Session.data];
    cbv zeta;
    destruct (Session.data (session st) !! "guest_session_id") as [t|];
    unfold truthy; try destruct (String.eqb t ""); reflexivity.
Qed.

Lemma run_chat_invalid (request : Request.t) (st : State) errors :
  ChatRequestSerializer.is_valid (Request.data request) = inl errors ->
  chat request st
  = (Returns (Response.mk (FieldErrors errors) 400), set_ticks (S (ticks st)) st).
Proof.
  intros H. unfold Backend.chat. rewrite run_bind. unfold now at 1.
  rewrite H. reflexivity.
Qed.

(** The lookup made by [chat] for a given conversation id. *)
Local Abbreviation chat_lookup request guest cid :=
  (fun c : Conversation.t =>
     match Request.user request with
     | Some u => has_id cid c && owned_by_user u c
     | None =>
         has_id cid c && bool_decide (Conversation.guest_session_id c = guest)
     end).

Lemma run_chat_valid (request : Request.t) (st : State) (v : ValidatedData.t) :
  ChatRequestSerializer.is_valid (Request.data request) = inr v ->
  exists (guest : option string) (st1 : State),
    match Request.user request with
    | Some _ => guest = None /\ st1 = set_ticks (S (ticks st)) st
    | None =>
        exists sid st0,
          guest = Some sid
          /\ get_or_create_guest_session st = (Returns sid, st0)
          /\ st1 = set_ticks (S (ticks st)) st0
    end
    /\ same_tables st st1
    /\ match ValidatedData.conversation_id v with
       | Some cid =>
           match filter (fun c => chat_lookup request guest cid c = true)
                   (tbl_conversations st1) with
           | [] =>
               chat request st
               = (Raises (Http404 "No Conversation matches the given query."),
                  st1)
           | conversation :: _ =>
               chat request st
               = chat_turn clock uuid4 post (clock (ticks st))
                   (Request.user request) guest (ValidatedData.message v)
                   (ValidatedData.temperature v) (ValidatedData.max_tokens v)
                   conversation st1
           end
       | None =>
           let conversation :=
             Conversation.mk (uuid4 (draws st1))
               (User.id <$> Request.user request) guest
               (title_of (ValidatedData.message v))
               (clock (ticks st1)) (clock (S (ticks st1))) in
           chat request st
           = chat_turn clock uuid4 post (clock (ticks st))
               (Request.user request) guest (ValidatedData.message v)
               (ValidatedData.temperature v) (ValidatedData.max_tokens v)
               conversation
               (mkState (tbl_conversations st1 ++ [conversation])
                  (tbl_messages st1) (tbl_api_usage st1) (session st1)
                  (S (S (ticks st1))) (S (draws st1)))
       end.
Proof.
  intros Hvalid. remember (chat request st) as r eqn:Hr.
  unfold Backend.chat in Hr. rewrite run_bind in Hr. unfold now at 1 in Hr.
  rewrite Hvalid in Hr. cbv zeta in Hr. rewrite run_bind in Hr.
  revert Hr. destruct (Request.user request) as [u|] eqn:Huser; intros Hr.
  - exists None, (set_ticks (S (ticks st)) st). split; [auto|].
    split; [repeat split|].
    rewrite run_ret, run_bind in Hr.
    destruct (ValidatedData.conversation_id v) as [cid|].
    + rewrite run_bind in Hr. unfold get at 1 in Hr.
      unfold get_object_or_404 in Hr.
      destruct (filter _ _) as [|conversation rest]; exact Hr.
    + rewrite run_create_conversation in Hr. exact Hr.
  - rewrite run_bind, guest_session_ticks in Hr.
    destruct (run_guest_session st) as (sid & st0 & Hrun & Htables & _).
    rewrite Hrun in Hr. exists (Some sid), (set_ticks (S (ticks st)) st0).
    split; [eauto|]. split; [exact Htables|].
    rewrite run_ret, run_bind in Hr.
    destruct (ValidatedData.conversation_id v) as [cid|].
    + rewrite run_bind in Hr. unfold get at 1 in Hr.
      unfold get_object_or_404 in Hr.
      destruct (filter _ _) as [|conversation rest]; exact Hr.
    + rewrite run_create_conversation in Hr. exact Hr.
Qed.

(** After validation a chat either finds no conversation for the caller,
    or runs the turn on the conversation it found or created. *)
Lemma chat_resolved (request : Request.t) (st : State) (v : ValidatedData.t) :
  ChatRequestSerializer.is_valid (Request.data request) = inr v ->
  (exists st1 cid,
      ValidatedData.conversation_id v = Some cid
      /\ same_tables st st1
      /\ chat request st
         = (Raises (Http404 "No Conversation matches the given query."), st1))
  \/ exists guest conversation st2,
       existsb (fun c => String.eqb (Conversation.id c)
                           (Conversation.id conversation))
         (tbl_conversations st2) = true
       /\ conversation ∈ tbl_conversations st2
       /\ tbl_messages st2 = tbl_messages st
       /\ tbl_api_usage st2 = tbl_api_usage st
       /\ match ValidatedData.conversation_id v with
          | Some cid =>
              tbl_conversations st2 = tbl_conversations st
              /\ Conversation.id conversation = cid
          | None =>
              tbl_conversations st2 = tbl_conversations st ++ [conversation]
              /\ Conversation.user conversation
                 = User.id <$> Request.user request
              /\ Conversation.guest_session_id conversation = guest
          end
       /\ match Request.user request with
          | Some u =>
              guest = None
              /\ Conversation.user conversation = Some (User.id u)
              /\ session st2 = session st
          | None =>
              exists sid st0,
                guest = Some sid
                /\ get_or_create_guest_session st = (Returns sid, st0)
                /\ session st2 = session st0
                /\ Conversation.guest_session_id conversation = Some sid
          end
       /\ chat request st
          = chat_turn clock uuid4 post (clock (ticks st))
              (Request.user request) guest (ValidatedData.message v)
              (ValidatedData.temperature v) (ValidatedData.max_tokens v)
              conversation st2.
Proof.
  intros Hvalid.
  destruct (run_chat_valid request st v Hvalid)
    as (guest & st1 & Hid & (Hc & Hm & Hu) & Hres).
  destruct (ValidatedData.conversation_id v) as [cid|].
  - destruct (filter _ _) as [|conversation rest] eqn:Hfilter.
    + left. exists st1, cid. repeat split; assumption.
    + right. exists guest, conversation, st1.
      assert (Hin : conversation ∈ filter
                      (fun c => chat_lookup request guest cid c = true)
                      (tbl_conversations st1))
        by (rewrite Hfilter; apply elem_of_cons; now left).
      apply list_elem_of_filter in Hin. destruct Hin as [Hlookup Hin].
      split; [now apply existsb_has_id|].
      split; [exact Hin|]. split; [exact Hm|]. split; [exact Hu|].
      destruct (Request.user request) as [u|].
      * apply andb_prop in Hlookup. destruct Hlookup as [Hid' Hown].
        apply String.eqb_eq in Hid'. apply bool_decide_eq_true in Hown.
        destruct Hid as [-> ->]. repeat split; try assumption.
      * apply andb_prop in Hlookup. destruct Hlookup as [Hid' Hown].
        apply String.eqb_eq in Hid'. apply bool_decide_eq_true in Hown.
        destruct Hid as (sid & st0 & -> & Hrun & ->).
        split; [split; assumption|]. split; [|exact Hres].
        exists sid, st0. repeat split; assumption.
  - right. cbv zeta in Hres.
    eexists guest, _, _. split; [|split; [|split; [|split; [|split; [|split]]]]].
    7: exact Hres.
    + cbn [tbl_conversations]. apply existsb_has_id, elem_of_app. right.
      apply elem_of_cons. now left.
    + cbn [tbl_conversations]. apply elem_of_app. right.
      apply elem_of_cons. now left.
    + exact Hm.
    + exact Hu.
    + cbn. rewrite Hc. repeat split.
    + cbn. destruct (Request.user request) as [u|].
      * destruct Hid as [-> ->]. repeat split.
      * destruct Hid as (sid & st0 & -> & Hrun & ->).
        exists sid, st0. repeat split. exact Hrun.
Qed.

(** *** Validation *)

Lemma is_valid_errors (data : ChatRequest.t) :
  (exists e, ChatRequestSerializer.message_field (ChatRequest.message data) = inl e)
  \/ (exists e, ChatRequestSerializer.temperature_field
                  (ChatRequest.temperature data) = inl e)
  \/ (exists e, ChatRequestSerializer.max_tokens_field
                  (ChatRequest.max_tokens data) = inl e) ->
  exists errors,
    ChatRequestSerializer.is_valid data = inl errors /\ errors <> [].
Proof.
  unfold ChatRequestSerializer.is_valid.
  intros [[e H]|[[e H]|[e H]]]; rewrite H;
    destruct (ChatRequestSerializer.message_field _);
    destruct (ChatRequestSerializer.temperature_field _);
    destruct (ChatRequestSerializer.max_tokens_field _);
    try discriminate; eexists; (split; [reflexivity | discriminate]).
Qed.

Lemma message_field_rejects (raw : string) :
  strip raw = "" \/ (2000 < len (strip raw))%nat ->
  exists e, ChatRequestSerializer.message_field (Some raw) = inl e.
Proof.
  intros H. unfold ChatRequestSerializer.message_field.
  destruct (String.eqb_spec (strip raw) "") as [_|Hne]; [eauto|].
  destruct H as [H|H]; [contradiction|].
  apply Nat.ltb_lt in H. rewrite H. simpl. eauto.
Qed.

Lemma temperature_field_rejects (t : Q) :
  (t < 0 \/ 2 < t)%Q ->
  exists e, ChatRequestSerializer.temperature_field (Some t) = inl e.
Proof.
  intros H. unfold ChatRequestSerializer.temperature_field.
  destruct (Qle_bool t 2) eqn:H2; destruct (Qle_bool 0 t) eqn:H0;
    simpl; eauto.
  apply Qle_bool_iff in H2, H0. destruct H as [H|H].
  - exfalso. exact (Qlt_not_le _ _ H H0).
  - exfalso. exact (Qlt_not_le _ _ H H2).
Qed.

Lemma max_tokens_field_rejects (k : Z) :
  (k < 1 \/ 4000 < k)%Z ->
  exists e, ChatRequestSerializer.max_tokens_field (Some k) = inl e.
Proof.
  intros H. unfold ChatRequestSerializer.max_tokens_field.
  destruct (Z.leb_spec k 4000); destruct (Z.leb_spec 1 k); simpl; eauto.
  lia.
Qed.


(** *** The records of a chat turn *)


(** *** Looking a conversation up on behalf of its owner *)

Lemma guest_session_stable (st : State) (sid : string) :
  Session.data (session st) !! "guest_session_id" = Some sid ->
  sid <> "" ->
  exists st',
    get_or_create_guest_session st = (Returns sid, st')
    /\ same_tables st st'
    /\ Session.data (session st') = Session.data (session st).
Proof.
  intros Hdata Hne.
  destruct (run_guest_session st)
    as (sid' & st' & Hrun & Htables & _ & _ & _ & Hkeep & _).
  destruct (Hkeep sid Hdata Hne) as [-> Hsame].
  exists st'. auto.
Qed.

Lemma guest_session_stored (st st0 : State) (sid : string) :
  (forall n, uuid4 n <> "") ->
  get_or_create_guest_session st = (Returns sid, st0) ->
  sid <> "" /\ Session.data (session st0) !! "guest_session_id" = Some sid.
Proof.
  intros Huuid Hrun.
  destruct (run_guest_session st)
    as (sid' & st' & Hrun' & _ & _ & _ & Hstored & Hkeep & Hfresh).
  rewrite Hrun in Hrun'. injection Hrun' as <- <-.
  split; [|exact Hstored].
  destruct (truthy (Session.data (session st) !! "guest_session_id")) eqn:Ht.
  - apply truthy_inv in Ht. destruct Ht as (t & Ht & Hne).
    destruct (Hkeep t Ht Hne) as [-> _]. exact Hne.
  - destruct (Hfresh eq_refl) as (k & _ & -> & _). apply Huuid.
Qed.

(** The rows that [get_object] searches. *)
Lemma run_get_object (request : Request.t) (pk : string) (st : State) :
  exists st',
    same_tables st st'
    /\ match Request.user request with
       | Some _ => st' = st
       | None => snd (get_or_create_guest_session st) = st'
       end
    /\ get_object request pk st =
       match
         filter (fun c => has_id pk c = true)
           (filter (fun c =>
                      owned_by (requester uuid4 new_session_key request st) c
                      = true)
              (tbl_conversations st))
       with
       | c :: _ => (Returns c, st')
       | [] => (Raises (Http404 "No Conversation matches the given query."), st')
       end.
Proof.
  unfold Backend.get_object, get_queryset, requester. rewrite run_bind.
  destruct (Request.user request) as [u|].
  - exists st. split; [repeat split|]. split; [reflexivity|].
    rewrite run_bind. unfold get at 1. rewrite run_ret.
    unfold get_object_or_404, owned_by_user, owned_by.
    destruct (filter _ _); reflexivity.
  - destruct (run_guest_session st) as (sid & st' & Hrun & Htables & _).
    rewrite run_bind, Hrun. exists st'. split; [exact Htables|].
    split; [reflexivity|]. cbn [fst].
    rewrite run_bind. unfold get at 1. rewrite run_ret.
    destruct Htables as (-> & _ & _).
    unfold get_object_or_404, owned_by_guest, owned_by.
    destruct (filter _ _); reflexivity.
Qed.

Lemma get_object_owned (request : Request.t) (pk : string) (st : State) :
  owns uuid4 new_session_key request st pk ->
  exists c st',
    get_object request pk st = (Returns c, st')
    /\ Conversation.id c = pk
    /\ same_tables st st'.
Proof.
  intros (c & Hin & Hid & Hown).
  destruct (run_get_object request pk st) as (st' & Htables & _ & Hrun).
  assert (Hc : c ∈ filter (fun c => has_id pk c = true)
                 (filter (fun c =>
                      owned_by (requester uuid4 new_session_key request st) c
                      = true)
                    (tbl_conversations st))).
  { apply list_elem_of_filter. split.
    - unfold has_id. now apply String.eqb_eq.
    - apply list_elem_of_filter. split; [exact Hown | exact Hin]. }
  destruct (filter (fun c => has_id pk c = true) _) as [|c' rest] eqn:Hf.
  - apply elem_of_nil in Hc. contradiction.
  - exists c', st'. split; [exact Hrun|]. split; [|exact Htables].
    assert (Hc' : c' ∈ c' :: rest) by (apply elem_of_cons; now left).
    rewrite <- Hf in Hc'. apply list_elem_of_filter in Hc'.
    destruct Hc' as [Hc' _]. unfold has_id in Hc'. now apply String.eqb_eq.
Qed.

Lemma get_object_foreign (request : Request.t) (pk : string) (st : State) :
  ~ owns uuid4 new_session_key request st pk ->
  exists st',
    get_object request pk st
    = (Raises (Http404 "No Conversation matches the given query."), st')
    /\ same_tables st st'.
Proof.
  intros Hforeign.
  destruct (run_get_object request pk st) as (st' & Htables & _ & Hrun).
  destruct (filter (fun c => has_id pk c = true) _) as [|c rest] eqn:Hf.
  - exists st'. split; assumption.
  - exfalso. apply Hforeign.
    assert (Hc : c ∈ c :: rest) by (apply elem_of_cons; now left).
    rewrite <- Hf in Hc. apply list_elem_of_filter in Hc.
    destruct Hc as [Hid Hc]. apply list_elem_of_filter in Hc.
    destruct Hc as [Hown Hin].
    exists c. split; [exact Hin|]. split; [|exact Hown].
    unfold has_id in Hid. now apply String.eqb_eq.
Qed.

(** *** Conversations of another owner *)

Lemma is_valid_conversation_id (data : ChatRequest.t) (v : ValidatedData.t) :
  ChatRequestSerializer.is_valid data = inr v ->
  ValidatedData.conversation_id v = ChatRequest.conversation_id data.
Proof.
  unfold ChatRequestSerializer.is_valid.
  destruct (ChatRequestSerializer.message_field _);
    destruct (ChatRequestSerializer.temperature_field _);
    destruct (ChatRequestSerializer.max_tokens_field _);
    try discriminate.
  intros H. injection H as <-. reflexivity.
Qed.

Lemma run_handle_not_found (view : M State Response.t) (st st' : State) msg :
  view st = (Raises (Http404 msg), st') ->
  handle_exception view st = (Returns (Response.mk (DetailBody msg) 404), st').
Proof. intros H. unfold handle_exception. now rewrite H. Qed.


(** *** Failure of the gateway *)

Lemma touch_elem (pk : string) (t : Z) (c : Conversation.t)
    (rows : list Conversation.t) :
  c ∈ rows -> Conversation.id c = pk ->
  Conversation.set_updated_at t c ∈ touch pk t rows.
Proof.
  intros Hin Hid. apply list_elem_of_In. apply list_elem_of_In in Hin.
  apply in_map_iff. exists c. split; [|exact Hin].
  rewrite Hid, String.eqb_refl. reflexivity.
Qed.

Lemma ai_reply_failed (e : exn) : ai_reply (Failed e) = Raises e.
Proof. reflexivity. Qed.

Lemma ai_reply_status (status_code : Z) (text : string) json :
  status_code <> 200%Z ->
  ai_reply (Responded status_code text json)
  = Raises (Exception ("AI service returned status " +:+ str_int status_code
                       +:+ ": " +:+ text)).
Proof.
  intros H. unfold ai_reply.
  destruct (Z.eqb_spec status_code 200); [contradiction | reflexivity].
Qed.


(** *** Owners of the conversations that the views create *)

Lemma chat_turn_frames start_time user guest message temperature max_tokens
    (conversation : Conversation.t) (st : State) :
  existsb (fun c => String.eqb (Conversation.id c) (Conversation.id conversation))
    (tbl_conversations st) = true ->
  map frame
    (tbl_conversations
       (snd (chat_turn clock uuid4 post start_time user guest message
               temperature max_tokens conversation st)))
  = map frame (tbl_conversations st).
Proof.
  intros Hfk. rewrite (run_chat_turn _ _ _ _ _ _ _ _ Hfk). cbv zeta.
  destruct (gateway_result _) as [[content r]|e]; cbn [snd tbl_conversations];
    now rewrite ?frame_touch.
Qed.

(** C7.  A conversation created by [perform_create], or by a chat request
    without a conversation id, has exactly one owner: the authenticated
    user and no guest session id, or no user and a non-empty guest session
    id.  A chat request creates no other conversation, and changes the
    owner of none. *)
Theorem created_conversation_has_one_owner :
  (forall n, uuid4 n <> "") ->
  (forall request title st,
      exists c st',
        perform_create request title st = (Returns c, st')
        /\ tbl_conversations st' = tbl_conversations st ++ [c]
        /\ exactly_one_owner c)
  /\ (forall request st v,
         ChatRequestSerializer.is_valid (Request.data request) = inr v ->
         ValidatedData.conversation_id v = None ->
         exists c,
           map frame (tbl_conversations (snd (chat request st)))
           = map frame (tbl_conversations st) ++ [frame c]
           /\ exactly_one_owner c)
  /\ (forall request st,
         (forall v,
             ChatRequestSerializer.is_valid (Request.data request) = inr v ->
             ValidatedData.conversation_id v <> None) ->
         map frame (tbl_conversations (snd (chat request st)))
         = map frame (tbl_conversations st)).
Proof.
  intros Huuid. split; [|split].
  - intros request title st. unfold Backend.perform_create.
    destruct (Request.user request) as [u|].
    + rewrite run_create_conversation. cbv zeta.
      eexists _, _. split; [reflexivity|]. split; [reflexivity|]. exact I.
    + destruct (run_guest_session st) as (sid & st0 & Hrun & (Hc & _) & _).
      rewrite run_bind, Hrun, run_create_conversation. cbv zeta.
      eexists _, _. split; [reflexivity|].
      split; [cbn; now rewrite Hc|].
      apply (guest_session_stored _ _ _ Huuid Hrun).
  - intros request st v Hvalid Hnew.
    destruct (chat_resolved request st v Hvalid)
      as [(st1 & cid & Hcid & _)
         |(guest & conversation & st2 & Hfk & _ & _ & _ & Hconv & Howner & Hturn)].
    { congruence. }
    rewrite Hnew in Hconv. destruct Hconv as (Hrows & Huser & Hguest).
    exists conversation. split.
    + rewrite Hturn, (chat_turn_frames _ _ _ _ _ _ _ _ Hfk), Hrows.
      now rewrite map_app.
    + unfold exactly_one_owner. rewrite Huser, Hguest.
      destruct (Request.user request) as [u|].
      * destruct Howner as (-> & _). exact I.
      * destruct Howner as (sid & st0 & -> & Hrun & _). cbn.
        apply (guest_session_stored _ _ _ Huuid Hrun).
  - intros request st Hgiven.
    destruct (ChatRequestSerializer.is_valid (Request.data request))
      as [errors|v] eqn:Hvalid.
    + now rewrite (run_chat_invalid _ _ _ Hvalid).
    + destruct (chat_resolved request st v Hvalid)
        as [(st1 & cid & _ & (Hrows & _) & Hraise)
           |(guest & conversation & st2 & Hfk & _ & _ & _ & Hconv & _ & Hturn)].
      * rewrite Hraise. cbn [snd]. now rewrite Hrows.
      * destruct (ValidatedData.conversation_id v) as [cid|] eqn:Hcid.
        -- destruct Hconv as (Hrows & _).
           now rewrite Hturn, (chat_turn_frames _ _ _ _ _ _ _ _ Hfk), Hrows.
        -- exfalso. now apply (Hgiven v).
Qed.

(** *** The effect of appending a message on its conversation *)

(** C8.  Saving a new message whose conversation is stored appends the
    message and rewrites the conversations row by row: the parent
    conversation gets as [updated_at] the reading of the clock made when it
    is saved (the last reading made by the append, two readings after the
    one that stamps the message), every other field of every conversation
    is unchanged, and so is [updated_at] of the other conversations. *)
Theorem message_append_refreshes_updated_at (self : Message.t) (st : State) :
  existsb (fun c => String.eqb (Conversation.id c) (Message.conversation self))
    (tbl_conversations st) = true ->
  exists m st',
    Message_save self st = (Returns m, st')
    /\ tbl_messages st' = tbl_messages st ++ [m]
    /\ Message.created_at m = clock (ticks st)
    /\ ticks st' = (3 + ticks st)%nat
    /\ Forall2
         (fun c c' =>
            frame c' = frame c
            /\ Conversation.updated_at c'
               = if String.eqb (Conversation.id c) (Message.conversation self)
                 then clock (2 + ticks st)
                 else Conversation.updated_at c)
         (tbl_conversations st) (tbl_conversations st')
    /\ ((forall i j, (i <= j)%nat -> (clock i <= clock j)%Z) ->
        (Message.created_at m <= clock (2 + ticks st))%Z).
Proof.
  intros Hfk. rewrite (run_message_save _ _ Hfk). cbv zeta.
  eexists _, _. split; [reflexivity|]. cbn.
  repeat split.
  - clear Hfk. induction (tbl_conversations st) as [|c rows IH]; cbn.
    + constructor.
    + constructor; [|exact IH].
      destruct (String.eqb (Conversation.id c) (Message.conversation self));
        split; reflexivity.
  - intros Hmono. apply Hmono. lia.
Qed.

(** *** The guest session id *)

(** C9.  With a generator of identifiers that never yields the empty
    string and never yields the same string twice: the first call on a
    session without a guest id draws a new identifier and stores it in the
    session; every later call on a state that holds that session returns
    the same identifier and leaves the session data unchanged; and two
    sessions without a guest id, served one after the other, get different
    identifiers. *)
Theorem guest_session_id_is_stable :
  (forall n, uuid4 n <> "") ->
  (forall i j, uuid4 i = uuid4 j -> i = j) ->
  (forall st,
      truthy (Session.data (session st) !! "guest_session_id") = false ->
      exists k sid st',
        get_or_create_guest_session st = (Returns sid, st')
        /\ sid = uuid4 k
        /\ (draws st <= k < draws st')%nat
        /\ Session.data (session st')
           = <["guest_session_id" := sid]> (Session.data (session st)))
  /\ (forall st sid st',
         get_or_create_guest_session st = (Returns sid, st') ->
         forall s,
           Session.data (session s) = Session.data (session st') ->
           exists s',
             get_or_create_guest_session s = (Returns sid, s')
             /\ Session.data (session s') = Session.data (session s))
  /\ (forall st1 sid1 st1' st2 sid2 st2',
         truthy (Session.data (session st1) !! "guest_session_id") = false ->
         truthy (Session.data (session st2) !! "guest_session_id") = false ->
         get_or_create_guest_session st1 = (Returns sid1, st1') ->
         (draws st1' <= draws st2)%nat ->
         get_or_create_guest_session st2 = (Returns sid2, st2') ->
         sid1 <> sid2).
Proof.
  intros Huuid Hinj.
  assert (Hfirst : forall st sid st',
             truthy (Session.data (session st) !! "guest_session_id") = false ->
             get_or_create_guest_session st = (Returns sid, st') ->
             exists k,
               sid = uuid4 k /\ (draws st <= k < draws st')%nat
               /\ Session.data (session st')
                  = <["guest_session_id" := sid]> (Session.data (session st))).
  { intros st sid st' Hnone Hrun.
    destruct (run_guest_session st)
      as (sid' & st0 & Hrun' & _ & _ & _ & _ & _ & Hfresh).
    rewrite Hrun in Hrun'. injection Hrun' as <- <-.
    destruct (Hfresh Hnone) as (k & Hk & Hsid & Hdata). eauto. }
  split; [|split].
  - intros st Hnone.
    destruct (run_guest_session st) as (sid & st' & Hrun & _).
    destruct (Hfirst st sid st' Hnone Hrun) as (k & Hsid & Hk & Hdata).
    exists k, sid, st'. auto.
  - intros st sid st' Hrun s Hsame.
    destruct (guest_session_stored _ _ _ Huuid Hrun) as [Hne Hstored].
    destruct (guest_session_stable s sid) as (s' & Hrun' & _ & Hdata).
    + rewrite Hsame. exact Hstored.
    + exact Hne.
    + exists s'. auto.
  - intros st1 sid1 st1' st2 sid2 st2' Hnone1 Hnone2 Hrun1 Hlater Hrun2 Heq.
    destruct (Hfirst _ _ _ Hnone1 Hrun1) as (k1 & -> & Hk1 & _).
    destruct (Hfirst _ _ _ Hnone2 Hrun2) as (k2 & -> & Hk2 & _).
    apply Hinj in Heq. lia.
Qed.

(** *** Messages of a conversation *)

Lemma related_messages_append (pk : string) (m : Message.t) (st st' : State) :
  tbl_messages st' = tbl_messages st ++ [m] ->
  Message.conversation m = pk ->
  related_messages pk st' = related_messages pk st ++ [m].
Proof.
  intros Hrows Hfk. unfold related_messages. rewrite Hrows, filter_app.
  f_equal. now rewrite filter_cons_True.
Qed.

End Facts.

(** *** The context window *)

Section ContextWindow.

Variable clock : nat -> Z.
Variable uuid4 : nat -> string.


End ContextWindow.

(** *** The properties on concrete requests *)



(** Alice asks for Bob's conversation. *)
Lemma alice_does_not_own_bobs_conversation :
  ~ owns Demo.uuid4 Demo.new_session_key
      (Request.mk (Some Demo.alice) Demo.hello) Demo.bobs_state "c-bob".
Proof.
  intros (c & Hin & _ & Hown).
  apply list_elem_of_singleton in Hin. subst c. vm_compute in Hown.
  discriminate.
Qed.



(** The demonstration oracle never draws the empty string, and never draws
    the same string twice. *)
Lemma demo_uuid4_nonempty (n : nat) : Demo.uuid4 n <> "".
Proof. destruct n; discriminate. Qed.

Lemma demo_uuid4_inj (i j : nat) : Demo.uuid4 i = Demo.uuid4 j -> i = j.
Proof.
  revert j. induction i as [|i IH]; intros [|j] H; try discriminate.
  - reflexivity.
  - injection H as H. f_equal. now apply IH.
Qed.


(** Alice creates a conversation. *)
Lemma created_conversation_has_one_owner_witness :
  exists c st',
    Backend.perform_create Demo.clock Demo.uuid4 Demo.new_session_key
      (Request.mk (Some Demo.alice) Demo.hello) (Some "Notes") Demo.empty
    = (Returns c, st')
    /\ tbl_conversations st' = tbl_conversations Demo.empty ++ [c]
    /\ exactly_one_owner c.
Proof.
  exact (proj1 (created_conversation_has_one_owner Demo.clock Demo.uuid4
                  Demo.new_session_key Demo.post_ok demo_uuid4_nonempty)
           (Request.mk (Some Demo.alice) Demo.hello) (Some "Notes") Demo.empty).
Defined.

(** A message is appended to Bob's conversation. *)
Lemma message_append_refreshes_updated_at_witness :
  exists m st',
    Backend.Message_save Demo.clock
      (Message.mk "m-1" "c-bob" "Hello" "user" [] 0) Demo.bobs_state
    = (Returns m, st')
    /\ tbl_messages st' = [m]
    /\ map Conversation.updated_at (tbl_conversations st')
       = [Demo.clock 2].
Proof.
  destruct (message_append_refreshes_updated_at Demo.clock
              (Message.mk "m-1" "c-bob" "Hello" "user" [] 0) Demo.bobs_state
              eq_refl)
    as (m & st' & Hrun & Hm & _ & _ & Hrows & _).
  exists m, st'. split; [exact Hrun|]. split; [exact Hm|].
  inversion Hrows as [|c c' rows rows' [_ Hc] Hnil Heq1 Heq2]; subst.
  inversion Hnil; subst. cbn. now rewrite Hc.
Defined.

(** The first call of an anonymous session, and the call after it. *)
Lemma guest_session_id_is_stable_witness :
  exists sid st' st'',
    Backend.get_or_create_guest_session Demo.uuid4 Demo.new_session_key
      Demo.empty = (Returns sid, st')
    /\ Backend.get_or_create_guest_session Demo.uuid4 Demo.new_session_key
         st' = (Returns sid, st'')
    /\ Session.data (session st'') = Session.data (session st').
Proof.
  destruct (proj1 (guest_session_id_is_stable Demo.uuid4
                     Demo.new_session_key demo_uuid4_nonempty
                     demo_uuid4_inj) Demo.empty eq_refl)
    as (k & sid & st' & Hrun & _).
  destruct (proj1 (proj2 (guest_session_id_is_stable Demo.uuid4
                            Demo.new_session_key
                            demo_uuid4_nonempty demo_uuid4_inj))
              Demo.empty sid st' Hrun st' eq_refl)
    as (st'' & Hrun' & Hdata).
  exists sid, st', st''. auto.
Defined.


End BackendFacts.

(** ** More on the inference responder *)

Module AIServiceExtras.

Import AIService AIEndpoint.

(** *** Strings *)

Lemma append_cons (c : ascii) (s t : string) :
  String c s +:+ t = String c (s +:+ t).
Proof. reflexivity. Qed.

Lemma append_empty_r (s : string) : s +:+ "" = s.
Proof.
  induction s as [|c s IH]; [reflexivity|]. now rewrite append_cons, IH.
Qed.

Lemma append_assoc (a b c : string) : (a +:+ b) +:+ c = a +:+ (b +:+ c).
Proof.
  induction a as [|x a IH]; [reflexivity|]. now rewrite !append_cons, IH.
Qed.

Lemma append_length (a b : string) :
  String.length (a +:+ b) = (String.length a + String.length b)%nat.
Proof.
  induction a as [|x a IH]; [reflexivity|].
  rewrite append_cons. simpl. now rewrite IH.
Qed.

Lemma concat_empty_cons (x : string) (l : list string) :
  String.concat "" (x :: l) = x +:+ String.concat "" l.
Proof.
  destruct l as [|y l]; [|reflexivity].
  change (x = x +:+ ""). now rewrite append_empty_r.
Qed.

Lemma concat_empty_app (l1 l2 : list string) :
  String.concat "" (l1 ++ l2) = String.concat "" l1 +:+ String.concat "" l2.
Proof.
  induction l1 as [|x l1 IH]; [reflexivity|].
  change ((x :: l1) ++ l2) with (x :: (l1 ++ l2)).
  now rewrite !concat_empty_cons, IH, append_assoc.
Qed.

Section Facts.

Variable clock : nat -> Z.

(** *** The three paths of [generate_response] *)

Lemma run_generate_mock (self : t) message history temperature max_tokens n
    content :
  model self = None ->
  mock_responses message !! (len message mod 4)%nat = Some content ->
  generate_response clock self message history temperature max_tokens n
  = (Returns
       (ChatResponse.mk content
          (Z.of_nat (length (split content)) + Z.of_nat (length (split message)))
          "mock-model" (elapsed_ms (clock n) (clock (S n)))),
     S (S n)).
Proof.
  intros Hmodel Hcontent. unfold generate_response. rewrite run_bind.
  unfold time_time at 1. apply run_try_returns. rewrite Hmodel.
  now apply AIServiceFacts.run_mock.
Qed.

Lemma run_generate_text (self : t) message history temperature max_tokens n
    generate_content text :
  model self = Some generate_content ->
  generate_content (_prepare_context history message)
    (GenerationConfig.mk temperature max_tokens (8 # 10) 40) = Returns text ->
  generate_response clock self message history temperature max_tokens n
  = (Returns
       (ChatResponse.mk text
          (Z.of_nat (length (split text)) + Z.of_nat (length (split message)))
          (model_name self) (elapsed_ms (clock n) (clock (S n)))),
     S (S n)).
Proof.
  intros Hmodel Hcall. unfold generate_response. rewrite run_bind.
  unfold time_time at 1. apply run_try_returns. rewrite Hmodel.
  rewrite run_bind. unfold lift. rewrite Hcall. reflexivity.
Qed.

Lemma run_generate_error (self : t) message history temperature max_tokens n
    generate_content e :
  model self = Some generate_content ->
  generate_content (_prepare_context history message)
    (GenerationConfig.mk temperature max_tokens (8 # 10) 40) = Raises e ->
  generate_response clock self message history temperature max_tokens n
  = (Returns
       (ChatResponse.mk
          ("I apologize, but I encountered an error: " +:+ str e
           +:+ ". Please try again later.")
          20
          (if String.eqb (model_name self) "" then "error-model"
           else model_name self)
          (elapsed_ms (clock n) (clock (S n)))),
     S (S n)).
Proof.
  intros Hmodel Hcall. unfold generate_response. rewrite run_bind.
  unfold time_time at 1.
  erewrite run_try_raises; [reflexivity|].
  rewrite Hmodel, run_bind. unfold lift. rewrite Hcall. reflexivity.
Qed.

Lemma generate_response_returns (self : t) message history temperature
    max_tokens n :
  exists r,
    generate_response clock self message history temperature max_tokens n
    = (Returns r, S (S n)).
Proof.
  destruct (model self) as [g|] eqn:Hmodel.
  - destruct (g (_prepare_context history message)
                (GenerationConfig.mk temperature max_tokens (8 # 10) 40))
      as [text|e] eqn:Hcall.
    + eexists. now apply (run_generate_text _ _ _ _ _ _ g text).
    + eexists. now apply (run_generate_error _ _ _ _ _ _ g e).
  - destruct (AIServiceFacts.mock_index_in_range message) as [content Hc].
    eexists. eapply run_generate_mock; eassumption.
Qed.

(** *** The context only depends on the last ten messages *)

Lemma prepare_context_last_ten (old recent : list ChatMessage.t) message :
  (10 <= length recent)%nat ->
  _prepare_context (old ++ recent) message = _prepare_context recent message.
Proof.
  intros Hlen. unfold _prepare_context.
  change (-10)%Z with (- Z.of_nat 10)%Z.
  rewrite !slice_from_last by lia.
  rewrite length_app.
  replace (length old + length recent - 10)%nat
    with (length old + (length recent - 10))%nat by lia.
  rewrite drop_app_add.
  destruct recent as [|m recent]; [simpl in Hlen; lia|].
  destruct old; reflexivity.
Qed.

(** X1.  The response does not depend on the messages that precede the
    last ten of the history: dropping them changes nothing, whatever the
    model is and whether it answers or raises. *)
Theorem older_messages_are_ignored
    (self : t) (message : string) (old recent : list ChatMessage.t)
    (temperature : Q) (max_tokens : Z) (n : nat) :
  (10 <= length recent)%nat ->
  generate_response clock self message (old ++ recent) temperature max_tokens n
  = generate_response clock self message recent temperature max_tokens n.
Proof.
  intros Hlen. unfold generate_response.
  now rewrite (prepare_context_last_ten old recent message Hlen).
Qed.

(** X2.  The context is a prefix that depends on the history only,
    followed by the new human turn and the open "Assistant:" marker.  For
    an empty history the prefix is the preamble alone; otherwise it is the
    preamble, the header "Previous conversation:", one line per message of
    the window and an empty line. *)
Theorem context_ends_with_current_turn (history : list ChatMessage.t) :
  exists prefix : string,
    (forall message,
        _prepare_context history message
        = prefix +:+ "Human: " +:+ message +:+ nl +:+ "Assistant:")
    /\ match history with
       | [] => prefix = String.concat "" preamble
       | _ :: _ =>
           prefix
           = String.concat "" preamble +:+ "Previous conversation:" +:+ nl
             +:+ String.concat ""
                   (map history_line (drop (length history - 10) history))
             +:+ nl
       end.
Proof.
  destruct history as [|m history].
  - exists (String.concat "" preamble). split; reflexivity.
  - eexists. split; [|reflexivity].
    intros message. unfold _prepare_context.
    change (-10)%Z with (- Z.of_nat 10)%Z.
    rewrite slice_from_last by lia.
    rewrite !concat_empty_app. cbn [String.concat].
    now rewrite !append_assoc.
Qed.

(** *** The endpoint *)

(** X3.  The chat endpoint never answers with an [HTTPException]: for every
    request and every service object it answers 200 with the response that
    [generate_response] returns; the route answers 422, and reads no clock,
    exactly when the body violates a constraint of [ChatRequest]. *)
Theorem chat_endpoint_always_answers_200
    (request : ChatRequest.t) (ai_service : AIService.t) (n : nat) :
  exists r : ChatResponse.t,
    generate_response clock ai_service (ChatRequest.message request)
      (ChatRequest.conversation_history request)
      (ChatRequest.temperature request) (ChatRequest.max_tokens request) n
    = (Returns r, S (S n))
    /\ chat_endpoint clock request ai_service n = (Returns (Reply200 r), S (S n))
    /\ post_chat clock request ai_service n
       = if valid request then (Returns (Reply200 r), S (S n))
         else (Returns Reply422, n).
Proof.
  destruct (generate_response_returns ai_service (ChatRequest.message request)
              (ChatRequest.conversation_history request)
              (ChatRequest.temperature request)
              (ChatRequest.max_tokens request) n) as [r Hr].
  exists r. split; [exact Hr|].
  assert (Hendpoint : chat_endpoint clock request ai_service n
                      = (Returns (Reply200 r), S (S n))).
  { unfold chat_endpoint. apply run_try_returns. rewrite run_bind, Hr.
    reflexivity. }
  split; [exact Hendpoint|].
  unfold post_chat. destruct (valid request); [exact Hendpoint | reflexivity].
Qed.

(** X4.  A service started without an API key (absent or empty), or whose
    model could not be built, starts all the same and answers every request
    with the mock response selected by the length of the message. *)
Theorem service_without_model_answers_mock
    (GEMINI_API_KEY : option string)
    (new_model : string -> outcome GenerativeModel)
    (request : ChatRequest.t) (n : nat) :
  GEMINI_API_KEY = None \/ GEMINI_API_KEY = Some ""
  \/ (exists e, new_model "gemini-1.5-flash" = Raises e) ->
  exists r : ChatResponse.t,
    chat_endpoint clock request (__init__ GEMINI_API_KEY new_model) n
    = (Returns (Reply200 r), S (S n))
    /\ ChatResponse.model r = "mock-model"
    /\ mock_responses (ChatRequest.message request)
         !! (len (ChatRequest.message request) mod 4)%nat
       = Some (ChatResponse.content r).
Proof.
  intros Hkey.
  assert (Hmodel : model (__init__ GEMINI_API_KEY new_model) = None).
  { unfold __init__. cbn [model].
    destruct Hkey as [->|[->|[e He]]]; [reflexivity | reflexivity |].
    destruct GEMINI_API_KEY as [key|]; [|reflexivity].
    destruct (String.eqb key ""); [reflexivity|]. now rewrite He. }
  destruct (AIServiceFacts.mock_index_in_range (ChatRequest.message request))
    as [content Hcontent].
  eexists. split; [|split].
  - unfold chat_endpoint. apply run_try_returns. rewrite run_bind.
    erewrite run_generate_mock by eassumption. reflexivity.
  - reflexivity.
  - exact Hcontent.
Qed.

End Facts.

(** *** The properties on concrete requests *)

(** Eleven messages: the first one is not among the last ten. *)
Lemma older_messages_are_ignored_witness :
  generate_response Demo.clock (AIService.mk "gemini-1.5-flash" None) "Hello"
    ([ChatMessage.mk "first" "user"]
     ++ List.repeat (ChatMessage.mk "again" "assistant") 10)
    (7 # 10) 1000 0
  = generate_response Demo.clock (AIService.mk "gemini-1.5-flash" None) "Hello"
      (List.repeat (ChatMessage.mk "again" "assistant") 10) (7 # 10) 1000 0.
Proof.
  apply older_messages_are_ignored. simpl. lia.
Defined.

(** A service started without a key. *)
Lemma service_without_model_answers_mock_witness :
  exists r : ChatResponse.t,
    chat_endpoint Demo.clock (ChatRequest.mk "Hello" [] (7 # 10) 1000)
      (__init__ None (fun _ => Raises (Exception "no credentials"))) 0
    = (Returns (Reply200 r), 2%nat)
    /\ ChatResponse.model r = "mock-model"
    /\ mock_responses "Hello" !! (len "Hello" mod 4)%nat
       = Some (ChatResponse.content r).
Proof.
  exact (service_without_model_answers_mock Demo.clock None
           (fun _ => Raises (Exception "no credentials"))
           (ChatRequest.mk "Hello" [] (7 # 10) 1000) 0 (or_introl eq_refl)).
Defined.

End AIServiceExtras.

(** ** More on the chat backend *)

Module BackendExtras.

Import Backend Props Reads Invariants.

(** *** Trimming *)

Lemma rstrip_rstrip (s : string) : rstrip (rstrip s) = rstrip s.
Proof.
  induction s as [|c s IH]; [reflexivity|]. simpl.
  destruct (rstrip s) as [|d r] eqn:Hr.
  - destruct (is_space c) eqn:Hc; [reflexivity|]. simpl. now rewrite Hc.
  - change (rstrip (String c (String d r))) with
      (match rstrip (String d r) with
       | EmptyString => if is_space c then EmptyString else String c EmptyString
       | r' => String c r'
       end).
    now rewrite IH.
Qed.

Lemma lstrip_lstrip (s : string) : lstrip (lstrip s) = lstrip s.
Proof.
  induction s as [|c s IH]; [reflexivity|]. simpl.
  destruct (is_space c) eqn:Hc; [exact IH|]. simpl. now rewrite Hc.
Qed.

Lemma rstrip_lstrip (s : string) : rstrip (lstrip s) = lstrip (rstrip s).
Proof.
  induction s as [|c s IH]; [reflexivity|].
  change (rstrip (String c s)) with
    (match rstrip s with
     | EmptyString => if is_space c then EmptyString else String c EmptyString
     | r => String c r
     end).
  change (lstrip (String c s)) with (if is_space c then lstrip s else String c s).
  destruct (is_space c) eqn:Hc.
  - rewrite IH. destruct (rstrip s) as [|d r]; [reflexivity|].
    simpl. now rewrite Hc.
  - change (rstrip (String c s)) with
      (match rstrip s with
       | EmptyString => if is_space c then EmptyString else String c EmptyString
       | r => String c r
       end).
    rewrite Hc. destruct (rstrip s) as [|d r]; simpl; now rewrite Hc.
Qed.

Lemma strip_strip (s : string) : strip (strip s) = strip s.
Proof.
  unfold strip. now rewrite rstrip_lstrip, rstrip_rstrip, lstrip_lstrip.
Qed.

(** *** What validation accepts *)

Lemma message_field_accepts (raw value : string) :
  ChatRequestSerializer.message_field (Some raw) = inr value <->
  strip raw <> "" /\ (len (strip raw) <= 2000)%nat
  /\ ChatRequestSerializer.has_null (strip raw) = false
  /\ value = strip raw.
Proof.
  unfold ChatRequestSerializer.message_field,
    ChatRequestSerializer.validate_message.
  rewrite strip_strip.
  destruct (String.eqb_spec (strip raw) "") as [Hblank|Hfull].
  - split; [discriminate | intros (H & _); contradiction].
  - destruct (Nat.ltb_spec 2000 (len (strip raw)));
      destruct (ChatRequestSerializer.has_null (strip raw)); simpl.
    + split; [discriminate | intros (_ & ? & _); lia].
    + split; [discriminate | intros (_ & ? & _); lia].
    + split; [discriminate | intros (_ & _ & ? & _); discriminate].
    + split.
      * intros H'. injection H' as <-. repeat split; [assumption | lia].
      * intros (_ & _ & _ & ->). reflexivity.
Qed.

Lemma temperature_field_accepts (data : option Q) (value : Q) :
  ChatRequestSerializer.temperature_field data = inr value <->
  match data with
  | None => value = (7 # 10)%Q
  | Some t => (0 <= t)%Q /\ (t <= 2)%Q /\ value = t
  end.
Proof.
  unfold ChatRequestSerializer.temperature_field.
  destruct data as [t|].
  - destruct (Qle_bool t 2) eqn:H2; destruct (Qle_bool 0 t) eqn:H0; simpl.
    + apply Qle_bool_iff in H2, H0. split.
      * intros H. injection H as <-. auto.
      * intros (_ & _ & ->). reflexivity.
    + split; [discriminate|]. intros (H & _). apply Qle_bool_iff in H.
      congruence.
    + split; [discriminate|]. intros (_ & H & _). apply Qle_bool_iff in H.
      congruence.
    + split; [discriminate|]. intros (H & _). apply Qle_bool_iff in H.
      congruence.
  - split; [intros H; now injection H as <- | intros ->; reflexivity].
Qed.

Lemma max_tokens_field_accepts (data : option Z) (value : Z) :
  ChatRequestSerializer.max_tokens_field data = inr value <->
  match data with
  | None => value = 1000%Z
  | Some k => (1 <= k <= 4000)%Z /\ value = k
  end.
Proof.
  unfold ChatRequestSerializer.max_tokens_field.
  destruct data as [k|].
  - destruct (Z.leb_spec k 4000); destruct (Z.leb_spec 1 k); simpl.
    + split; [intros H'; injection H' as <-; split; [lia | reflexivity]
             | intros (_ & ->); reflexivity].
    + split; [discriminate | intros (? & _); lia].
    + split; [discriminate | intros (? & _); lia].
    + split; [discriminate | intros (? & _); lia].
  - split; [intros H; now injection H as <- | intros ->; reflexivity].
Qed.

Lemma is_valid_accepts (data : ChatRequest.t) (v : ValidatedData.t) :
  ChatRequestSerializer.is_valid data = inr v <->
  ChatRequestSerializer.message_field (ChatRequest.message data)
  = inr (ValidatedData.message v)
  /\ ValidatedData.conversation_id v = ChatRequest.conversation_id data
  /\ ChatRequestSerializer.temperature_field (ChatRequest.temperature data)
     = inr (ValidatedData.temperature v)
  /\ ChatRequestSerializer.max_tokens_field (ChatRequest.max_tokens data)
     = inr (ValidatedData.max_tokens v).
Proof.
  unfold ChatRequestSerializer.is_valid.
  destruct (ChatRequestSerializer.message_field _) as [?|m];
    destruct (ChatRequestSerializer.temperature_field _) as [?|t];
    destruct (ChatRequestSerializer.max_tokens_field _) as [?|k];
    (split; [try discriminate | try (intros (? & ? & ? & ?); discriminate)]).
  - intros H. injection H as <-. repeat split.
  - intros (Hm & Hc & Ht & Hk). destruct v as [m' c' t' k']. cbn in *.
    injection Hm as ->. injection Ht as ->. injection Hk as ->. now subst.
Qed.


(** X6.  [validate_message] refuses exactly the values that are blank once
    trimmed; the value it returns is the trimmed one, is not empty, has no
    white space left to trim, and validates to itself. *)
Theorem validate_message_trims (value : string) :
  match ChatRequestSerializer.validate_message value with
  | inl errors => strip value = "" /\ errors = ["Message cannot be empty"]
  | inr v =>
      v = strip value /\ v <> "" /\ strip v = v
      /\ ChatRequestSerializer.validate_message v = inr v
  end.
Proof.
  unfold ChatRequestSerializer.validate_message.
  destruct (String.eqb_spec (strip value) "") as [Hblank|Hfull].
  - split; [exact Hblank | reflexivity].
  - split; [reflexivity|]. split; [exact Hfull|].
    split; [apply strip_strip|]. rewrite strip_strip.
    destruct (String.eqb_spec (strip value) ""); [contradiction | reflexivity].
Qed.

(** *** Titles *)

Lemma substring_0_length (n : nat) (s : string) :
  String.length (substring 0 n s) = Nat.min n (String.length s).
Proof.
  revert s. induction n as [|n IH]; intros [|c s]; simpl; try reflexivity.
  now rewrite IH.
Qed.

Lemma substring_0_split (n : nat) (s : string) :
  exists rest, s = substring 0 n s +:+ rest.
Proof.
  revert s. induction n as [|n IH]; intros [|c s]; simpl.
  - exists "". reflexivity.
  - exists (String c s). reflexivity.
  - exists "". reflexivity.
  - destruct (IH s) as [rest Hrest]. exists rest.
    change (String c (substring 0 n s) +:+ rest)
      with (String c (substring 0 n s +:+ rest)).
    now rewrite <- Hrest.
Qed.

Lemma title_of_shape (message : string) :
  exists head rest,
    message = head +:+ rest
    /\ (if 50 <? len message
        then len head = 50%nat /\ title_of message = head +:+ "..."
        else rest = "" /\ title_of message = message)
    /\ (len (title_of message) <= 53)%nat.
Proof.
  unfold title_of, str_slice_to, len.
  destruct (Nat.ltb_spec 50 (String.length message)) as [Hlong|Hshort].
  - destruct (substring_0_split 50 message) as [rest Hrest].
    exists (substring 0 50 message), rest.
    split; [exact Hrest|].
    assert (Hlen : String.length (substring 0 50 message) = 50%nat)
      by (rewrite substring_0_length; lia).
    split; [split; [exact Hlen | reflexivity]|].
    rewrite AIServiceExtras.append_length, Hlen. simpl. lia.
  - exists message, "". split; [now rewrite AIServiceExtras.append_empty_r|].
    split; [split; reflexivity | lia].
Qed.

Section Facts.

Variable clock : nat -> Z.
Variable uuid4 : nat -> string.
Variable new_session_key : nat -> string.
Variable post : ChatPayload.t -> HttpOutcome.

Local Abbreviation chat := (chat clock uuid4 new_session_key post).
Local Abbreviation messages := (messages uuid4 new_session_key).
Local Abbreviation retrieve := (retrieve uuid4 new_session_key).

(** X7.  A chat request without a conversation id that passes validation
    adds one conversation whose title is the message when it has at most
    50 characters, and otherwise its first 50 characters followed by three
    dots; the title never has more than 53 characters. *)
Theorem first_message_gives_the_title
    (request : Request.t) (st : State) (v : ValidatedData.t) :
  ChatRequestSerializer.is_valid (Request.data request) = inr v ->
  ValidatedData.conversation_id v = None ->
  exists c head rest,
    map frame (tbl_conversations (snd (chat request st)))
    = map frame (tbl_conversations st) ++ [frame c]
    /\ ValidatedData.message v = head +:+ rest
    /\ (if 50 <? len (ValidatedData.message v)
        then len head = 50%nat /\ Conversation.title c = head +:+ "..."
        else rest = "" /\ Conversation.title c = ValidatedData.message v)
    /\ (len (Conversation.title c) <= 53)%nat.
Proof.
  intros Hvalid Hnew.
  destruct (BackendFacts.run_chat_valid clock uuid4 new_session_key post
              request st v Hvalid)
    as (guest & st1 & _ & (Hrows & _ & _) & Hres).
  rewrite Hnew in Hres. cbv zeta in Hres.
  destruct (title_of_shape (ValidatedData.message v))
    as (head & rest & Hsplit & Hshape & Hbound).
  eexists _, head, rest. split; [|split; [exact Hsplit|split]].
  - rewrite Hres, BackendFacts.chat_turn_frames.
    + cbn [tbl_conversations]. rewrite map_app, Hrows. reflexivity.
    + cbn [tbl_conversations]. apply BackendFacts.existsb_has_id.
      apply elem_of_app. right. apply elem_of_cons. now left.
  - exact Hshape.
  - exact Hbound.
Qed.

End Facts.

(** *** The properties on concrete requests *)

(** Alice opens a conversation with a message of sixty characters. *)
Lemma first_message_gives_the_title_witness :
  exists c head rest,
    map frame
      (tbl_conversations
         (snd (Backend.chat Demo.clock Demo.uuid4 Demo.new_session_key
                 Demo.post_ok
                 (Request.mk (Some Demo.alice)
                    (ChatRequest.mk
                       (Some "xxxxxxxxxxxxxxxxxxxxxxxxxxxxxxxxxxxxxxxxxxxxxxxxxxxxxxxxxxxx")
                       None None None))
                 Demo.empty)))
    = map frame (tbl_conversations Demo.empty) ++ [frame c]
    /\ "xxxxxxxxxxxxxxxxxxxxxxxxxxxxxxxxxxxxxxxxxxxxxxxxxxxxxxxxxxxx"
       = head +:+ rest
    /\ (len head = 50%nat /\ Conversation.title c = head +:+ "...")
    /\ (len (Conversation.title c) <= 53)%nat.
Proof.
  exact (first_message_gives_the_title Demo.clock Demo.uuid4
           Demo.new_session_key Demo.post_ok
           (Request.mk (Some Demo.alice)
              (ChatRequest.mk
                 (Some "xxxxxxxxxxxxxxxxxxxxxxxxxxxxxxxxxxxxxxxxxxxxxxxxxxxxxxxxxxxx")
                 None None None))
           Demo.empty
           (ValidatedData.mk
              "xxxxxxxxxxxxxxxxxxxxxxxxxxxxxxxxxxxxxxxxxxxxxxxxxxxxxxxxxxxx"
              None (7 # 10) 1000)
           eq_refl eq_refl).
Defined.

(** *** Ordered queries *)

Section Ordering.

Context {A : Type} (key : A -> Z).

Lemma insert_by_perm (x : A) (l : list A) : insert_by key x l ≡ₚ x :: l.
Proof.
  induction l as [|y l IH]; simpl; [reflexivity|].
  destruct (key x <=? key y)%Z; [reflexivity|].
  rewrite IH. apply Permutation_swap.
Qed.

Lemma order_by_perm (l : list A) : order_by key l ≡ₚ l.
Proof.
  induction l as [|x l IH]; simpl; [reflexivity|].
  now rewrite insert_by_perm, IH.
Qed.

Lemma insert_by_sorted (x : A) (l : list A) :
  StronglySorted (fun a b => (key a <= key b)%Z) l ->
  StronglySorted (fun a b => (key a <= key b)%Z) (insert_by key x l).
Proof.
  induction 1 as [|y l Hsorted IH Hy]; simpl.
  - repeat constructor.
  - destruct (Z.leb_spec (key x) (key y)) as [Hle|Hgt].
    + constructor; [now constructor|].
      constructor; [exact Hle|].
      eapply Forall_impl; [exact Hy|]. cbn. intros z Hz. lia.
    + constructor; [exact IH|].
      apply Forall_forall. intros z Hz.
      apply BackendFacts.insert_by_elem in Hz. destruct Hz as [->|Hz].
      * lia.
      * rewrite Forall_forall in Hy. now apply Hy.
Qed.

Lemma order_by_sorted (l : list A) :
  StronglySorted (fun a b => (key a <= key b)%Z) (order_by key l).
Proof.
  induction l as [|x l IH]; simpl; [constructor | now apply insert_by_sorted].
Qed.

(** The first row of an ordered query is a row with the least key. *)
Lemma order_by_head (l : list A) :
  match head (order_by key l) with
  | None => l = []
  | Some x => x ∈ l /\ Forall (fun y => (key x <= key y)%Z) l
  end.
Proof.
  pose proof (order_by_sorted l) as Hsorted.
  pose proof (BackendFacts.order_by_length key l) as Hlen.
  destruct (order_by key l) as [|x rest] eqn:Horder; cbn [head].
  - destruct l; [reflexivity | discriminate].
  - assert (Hx : x ∈ order_by key l) by (rewrite Horder; apply elem_of_cons; now left).
    split; [now apply BackendFacts.order_by_elem in Hx|].
    apply Forall_forall. intros y Hy.
    apply (BackendFacts.order_by_elem key) in Hy. rewrite Horder in Hy.
    inversion Hsorted as [|? ? _ Hrest]; subst.
    apply elem_of_cons in Hy. destruct Hy as [->|Hy]; [lia|].
    rewrite Forall_forall in Hrest. now apply Hrest.
Qed.

End Ordering.

(** X8.  [last_message] is [None] exactly for a conversation without
    messages; otherwise it is one of the messages of the conversation and
    none of them was created later. *)
Theorem last_message_is_the_latest (self : Conversation.t) (st : State) :
  match last_message self st with
  | None => message_count self st = 0%nat
  | Some m =>
      m ∈ related_messages (Conversation.id self) st
      /\ (0 < message_count self st)%nat
      /\ Forall (fun m' => (Message.created_at m' <= Message.created_at m)%Z)
           (related_messages (Conversation.id self) st)
  end.
Proof.
  unfold last_message, message_count.
  pose proof (order_by_head (fun m => (- Message.created_at m)%Z)
                (related_messages (Conversation.id self) st)) as Hhead.
  destruct (head _) as [m|].
  - destruct Hhead as [Hin Hall]. split; [exact Hin|]. split.
    + destruct (related_messages _ _); [now apply elem_of_nil in Hin|].
      simpl. lia.
    + eapply Forall_impl; [exact Hall|]. cbn. intros m' Hm'. lia.
  - now rewrite Hhead.
Qed.

Section Listing.

Variable uuid4 : nat -> string.
Variable new_session_key : nat -> string.

(** X9.  When the requester owns the conversation, the [messages] action
    answers 200 with exactly the stored messages of that conversation, each
    once, in the order of their creation; it changes no table. *)
Theorem messages_are_listed_in_creation_order
    (request : Request.t) (pk : string) (st : State) :
  owns uuid4 new_session_key request st pk ->
  exists listing st',
    Backend.messages uuid4 new_session_key request pk st
    = (Returns (Response.mk (MessagesBody listing) 200), st')
    /\ same_tables st st'
    /\ listing ≡ₚ related_messages pk st
    /\ StronglySorted
         (fun a b => (Message.created_at a <= Message.created_at b)%Z)
         listing.
Proof.
  intros Howns.
  destruct (BackendFacts.get_object_owned uuid4 new_session_key request pk st
              Howns)
    as (c & st' & Hget & Hid & Htables).
  unfold Backend.messages. rewrite run_bind, Hget.
  eexists _, st'. split; [reflexivity|]. split; [exact Htables|].
  unfold messages_all. rewrite Hid.
  destruct Htables as (_ & Hm & _).
  assert (Hrel : related_messages pk st' = related_messages pk st)
    by (unfold related_messages; now rewrite Hm).
  cbn [get fst snd]. split.
  - unfold get. cbn. rewrite Hrel. apply order_by_perm.
  - apply order_by_sorted.
Qed.

End Listing.

(** Bob lists the three messages of his conversation. *)
Lemma bob_owns_his_conversation :
  owns Demo.uuid4 Demo.new_session_key
    (Request.mk (Some Demo.bob) Demo.hello) Demo.bobs_busy_state "c-bob".
Proof.
  exists Demo.bobs_conversation. split; [apply elem_of_cons; now left|].
  split; reflexivity.
Qed.

Lemma messages_are_listed_in_creation_order_witness :
  exists listing st',
    Backend.messages Demo.uuid4 Demo.new_session_key
      (Request.mk (Some Demo.bob) Demo.hello) "c-bob" Demo.bobs_busy_state
    = (Returns (Response.mk (MessagesBody listing) 200), st')
    /\ same_tables Demo.bobs_busy_state st'
    /\ listing ≡ₚ related_messages "c-bob" Demo.bobs_busy_state
    /\ StronglySorted
         (fun a b => (Message.created_at a <= Message.created_at b)%Z)
         listing.
Proof.
  exact (messages_are_listed_in_creation_order Demo.uuid4 Demo.new_session_key
           (Request.mk (Some Demo.bob) Demo.hello) "c-bob"
           Demo.bobs_busy_state bob_owns_his_conversation).
Defined.

(** *** What a chat leaves in the tables *)

Lemma ids_touch (pk : string) (t : Z) (rows : list Conversation.t) :
  map Conversation.id
    (map (fun c => if String.eqb (Conversation.id c) pk
                   then Conversation.set_updated_at t c else c) rows)
  = map Conversation.id rows.
Proof.
  induction rows as [|c rows IH]; simpl; [reflexivity|].
  rewrite IH. now destruct (String.eqb (Conversation.id c) pk).
Qed.

Lemma existsb_has_id_ids (pk : string) (rows : list Conversation.t) :
  existsb (fun c => has_id pk c) rows = true <-> pk ∈ map Conversation.id rows.
Proof.
  unfold has_id. split.
  - intros H. apply existsb_exists in H. destruct H as (c & Hin & Hid).
    apply list_elem_of_In, in_map_iff. exists c.
    split; [now apply String.eqb_eq | exact Hin].
  - intros H. apply list_elem_of_In, in_map_iff in H.
    destruct H as (c & Hid & Hin). apply existsb_exists. exists c.
    split; [exact Hin | now apply String.eqb_eq].
Qed.

Section Effects.

Variable clock : nat -> Z.
Variable uuid4 : nat -> string.
Variable new_session_key : nat -> string.
Variable post : ChatPayload.t -> HttpOutcome.

Local Abbreviation chat := (chat clock uuid4 new_session_key post).

(** A validated chat either finds no conversation, or runs the turn from a
    state that differs from the initial one by the clock, the session and
    at most one new conversation. *)
Lemma chat_run_full (request : Request.t) (st : State) (v : ValidatedData.t) :
  ChatRequestSerializer.is_valid (Request.data request) = inr v ->
  (exists st1 cid,
      ValidatedData.conversation_id v = Some cid
      /\ same_tables st st1
      /\ chat request st
         = (Raises (Http404 "No Conversation matches the given query."), st1))
  \/ exists guest conversation st2,
       existsb (fun c => String.eqb (Conversation.id c)
                           (Conversation.id conversation))
         (tbl_conversations st2) = true
       /\ tbl_messages st2 = tbl_messages st
       /\ tbl_api_usage st2 = tbl_api_usage st
       /\ map Conversation.id (tbl_conversations st2)
          = map Conversation.id (tbl_conversations st)
            ++ match ValidatedData.conversation_id v with
               | Some _ => []
               | None => [Conversation.id conversation]
               end
       /\ (ticks st < ticks st2)%nat
       /\ match Request.user request with
          | Some _ => guest = None
          | None => exists sid, guest = Some sid
          end
       /\ chat request st
          = chat_turn clock uuid4 post (clock (ticks st))
              (Request.user request) guest (ValidatedData.message v)
              (ValidatedData.temperature v) (ValidatedData.max_tokens v)
              conversation st2.
Proof.
  intros Hvalid.
  destruct (BackendFacts.run_chat_valid clock uuid4 new_session_key post
              request st v Hvalid)
    as (guest & st1 & Hid & (Hc & Hm & Hu) & Hres).
  assert (Hticks : ticks st1 = S (ticks st)).
  { destruct (Request.user request).
    - destruct Hid as [_ ->]. reflexivity.
    - destruct Hid as (sid & st0 & _ & _ & ->). reflexivity. }
  assert (Hguest : match Request.user request with
                   | Some _ => guest = None
                   | None => exists sid, guest = Some sid
                   end).
  { destruct (Request.user request).
    - now destruct Hid.
    - destruct Hid as (sid & st0 & -> & _). eauto. }
  destruct (ValidatedData.conversation_id v) as [cid|].
  - destruct (filter _ _) as [|conversation rest] eqn:Hfilter.
    + left. exists st1, cid. repeat split; assumption.
    + right. exists guest, conversation, st1.
      assert (Hin : conversation ∈ tbl_conversations st1).
      { assert (H : conversation ∈ conversation :: rest)
          by (apply elem_of_cons; now left).
        rewrite <- Hfilter in H. now apply list_elem_of_filter in H. }
      split; [now apply BackendFacts.existsb_has_id|].
      split; [exact Hm|]. split; [exact Hu|].
      split; [now rewrite Hc, app_nil_r|].
      split; [lia|]. split; [exact Hguest | exact Hres].
  - right. cbv zeta in Hres. eexists guest, _, _.
    split; [|split; [|split; [|split; [|split; [|split]]]]].
    7: exact Hres.
    + cbn [tbl_conversations]. apply BackendFacts.existsb_has_id, elem_of_app.
      right. apply elem_of_cons. now left.
    + exact Hm.
    + exact Hu.
    + cbn. now rewrite map_app, Hc.
    + cbn. lia.
    + exact Hguest.
Qed.

(** X10.  Whatever the request and its outcome, a chat only appends: the
    stored messages and usage records are kept as they are, in place, no
    conversation disappears or changes its identifier, and when every
    stored message referred to a stored conversation before the chat, every
    message does so after it. *)
Theorem chat_only_appends (request : Request.t) (st : State) :
  tbl_messages st `prefix_of` tbl_messages (snd (chat request st))
  /\ tbl_api_usage st `prefix_of` tbl_api_usage (snd (chat request st))
  /\ map Conversation.id (tbl_conversations st)
     `prefix_of` map Conversation.id (tbl_conversations (snd (chat request st)))
  /\ (references_hold st -> references_hold (snd (chat request st))).
Proof.
  destruct (ChatRequestSerializer.is_valid (Request.data request))
    as [errors|v] eqn:Hvalid.
  { rewrite (BackendFacts.run_chat_invalid _ _ _ _ _ _ _ Hvalid).
    cbn. repeat split; try reflexivity. auto. }
  destruct (chat_run_full request st v Hvalid)
    as [(st1 & cid & _ & (Hc & Hm & Hu) & Hraise)
       |(guest & conversation & st2 & Hfk & Hm & Hu & Hids & _ & _ & Hturn)].
  { rewrite Hraise. cbn [snd]. rewrite Hc, Hm, Hu.
    repeat split; try reflexivity.
    unfold references_hold. now rewrite Hc, Hm. }
  rewrite Hturn, (BackendFacts.run_chat_turn _ _ _ _ _ _ _ _ _ _ _ Hfk).
  cbv zeta.
  assert (Hold : references_hold st ->
                 Forall (fun m =>
                           Message.conversation m
                           ∈ map Conversation.id (tbl_conversations st2))
                   (tbl_messages st)).
  { intros Href. eapply Forall_impl; [exact Href|]. cbn. intros m Hm'.
    apply existsb_has_id_ids in Hm'. rewrite Hids. apply elem_of_app.
    now left. }
  assert (Hnew : Conversation.id conversation
                 ∈ map Conversation.id (tbl_conversations st2))
    by now apply existsb_has_id_ids.
  destruct (gateway_result _) as [[content r]|e];
    cbn [snd tbl_messages tbl_api_usage tbl_conversations];
    rewrite ?ids_touch, Hm, Hu, Hids;
    (split; [|split; [|split]]).
  - rewrite <- app_assoc. now apply prefix_app_r.
  - now apply prefix_app_r.
  - now apply prefix_app_r.
  - intros Href. unfold references_hold.
    cbn [tbl_messages tbl_conversations].
    apply Forall_forall. intros m Hin.
    apply existsb_has_id_ids. rewrite !ids_touch.
    rewrite !elem_of_app, !list_elem_of_singleton in Hin.
    destruct Hin as [[Hin| ->]| ->]; [|exact Hnew|exact Hnew].
    specialize (Hold Href). rewrite Forall_forall in Hold. now apply Hold.
  - now apply prefix_app_r.
  - now apply prefix_app_r.
  - now apply prefix_app_r.
  - intros Href. unfold references_hold.
    cbn [tbl_messages tbl_conversations].
    apply Forall_forall. intros m Hin.
    apply existsb_has_id_ids. rewrite !ids_touch.
    rewrite !elem_of_app, !list_elem_of_singleton in Hin.
    destruct Hin as [Hin| ->]; [|exact Hnew].
    specialize (Hold Href). rewrite Forall_forall in Hold. now apply Hold.
Qed.


(** The usage record written by a chat: whose it is and what it counts. *)
Lemma chat_usage_record
    (request : Request.t) (st : State) (v : ValidatedData.t)
    (response : Response.t) (st' : State) :
  ChatRequestSerializer.is_valid (Request.data request) = inr v ->
  chat request st = (Returns response, st') ->
  exists ur,
    tbl_api_usage st' = tbl_api_usage st ++ [ur]
    /\ APIUsage.user ur = User.id <$> Request.user request
    /\ APIUsage.tokens_used ur
       = match Response.data response with
         | ChatBody result => ChatResult.tokens_used result
         | _ => 0%Z
         end.
Proof.
  intros Hvalid Hchat.
  destruct (chat_run_full request st v Hvalid)
    as [(st1 & cid & _ & _ & Hraise)
       |(guest & conversation & st2 & Hfk & _ & Hu & _ & _ & _ & Hturn)].
  { rewrite Hraise in Hchat. discriminate. }
  rewrite Hturn, (BackendFacts.run_chat_turn _ _ _ _ _ _ _ _ _ _ _ Hfk)
    in Hchat.
  cbv zeta in Hchat.
  destruct (gateway_result _) as [[content r]|e]; injection Hchat as <- <-;
    eexists; cbn [tbl_api_usage]; rewrite Hu; repeat split.
Qed.

(** *** Usage statistics *)

Lemma tokens_total (queryset : list APIUsage.t) :
  default 0%Z (Sum_tokens_used queryset)
  = foldr (fun r acc => (APIUsage.tokens_used r + acc)%Z) 0%Z queryset.
Proof. destruct queryset; reflexivity. Qed.

Lemma tokens_perm (l l' : list APIUsage.t) :
  l ≡ₚ l' ->
  foldr (fun r acc => (APIUsage.tokens_used r + acc)%Z) 0%Z l
  = foldr (fun r acc => (APIUsage.tokens_used r + acc)%Z) 0%Z l'.
Proof.
  induction 1 as [|x l l' _ IH|x y l|l l' l'' _ IH1 _ IH2]; simpl.
  - reflexivity.
  - now rewrite IH.
  - lia.
  - congruence.
Qed.

Lemma tokens_snoc (l : list APIUsage.t) (x : APIUsage.t) :
  foldr (fun r acc => (APIUsage.tokens_used r + acc)%Z) 0%Z (l ++ [x])
  = (foldr (fun r acc => (APIUsage.tokens_used r + acc)%Z) 0%Z l
     + APIUsage.tokens_used x)%Z.
Proof. induction l as [|y l IH]; simpl; [lia | rewrite IH; lia]. Qed.

Section Statistics.

Variable Avg : list Z -> Q.
Variable round2 : Q -> Q.

Local Abbreviation stats := (stats Avg round2).

(** X12.  For an authenticated caller, a chat that passes validation and
    resolves its conversation raises [total_requests] of the caller's
    statistics by one and [total_tokens_used] by the token count of the
    response (by nothing when the answer is an error); the totals of every
    other user are unchanged. *)
Theorem chat_adds_one_request_to_stats
    (request : Request.t) (u : User.t) (st : State) (v : ValidatedData.t)
    (response : Response.t) (st' : State) :
  Request.user request = Some u ->
  ChatRequestSerializer.is_valid (Request.data request) = inr v ->
  chat request st = (Returns response, st') ->
  Stats.total_requests (stats request st')
  = S (Stats.total_requests (stats request st))
  /\ Stats.total_tokens_used (stats request st')
     = (Stats.total_tokens_used (stats request st)
        + match Response.data response with
          | ChatBody result => ChatResult.tokens_used result
          | _ => 0
          end)%Z
  /\ forall (w : User.t) (data : ChatRequest.t),
       User.id w <> User.id u ->
       Stats.total_requests (stats (Request.mk (Some w) data) st')
       = Stats.total_requests (stats (Request.mk (Some w) data) st)
       /\ Stats.total_tokens_used (stats (Request.mk (Some w) data) st')
          = Stats.total_tokens_used (stats (Request.mk (Some w) data) st).
Proof.
  intros Huser Hvalid Hchat.
  destruct (chat_usage_record request st v response st' Hvalid Hchat)
    as (ur & Hu & Hur & Htokens).
  rewrite Huser in Hur. cbn in Hur.
  unfold Reads.stats, APIUsageViewSet_get_queryset.
  cbn [Stats.total_requests Stats.total_tokens_used Request.user].
  rewrite Huser, Hu, !tokens_total, !BackendFacts.order_by_length.
  split; [|split].
  - rewrite filter_app, filter_cons_True by exact Hur.
    rewrite length_app. cbn. lia.
  - rewrite !(tokens_perm _ _ (order_by_perm _ _)).
    rewrite filter_app, filter_cons_True by exact Hur.
    cbn [filter]. rewrite filter_nil, tokens_snoc. now rewrite Htokens.
  - intros w data Hother.
    assert (Hnot : APIUsage.user ur <> Some (User.id w)) by congruence.
    rewrite !tokens_total, !BackendFacts.order_by_length.
    rewrite !(tokens_perm _ _ (order_by_perm _ _)).
    rewrite filter_app, filter_cons_False by exact Hnot.
    rewrite filter_nil, app_nil_r. split; reflexivity.
Qed.

End Statistics.

End Effects.


(** Alice says "Hello": one request and twelve tokens more. *)
Lemma chat_adds_one_request_to_stats_witness :
  exists response st',
    Backend.chat Demo.clock Demo.uuid4 Demo.new_session_key Demo.post_ok
      (Request.mk (Some Demo.alice) Demo.hello) Demo.empty
    = (Returns response, st')
    /\ Stats.total_requests
         (stats (fun _ => 0%Q) (fun q => q)
            (Request.mk (Some Demo.alice) Demo.hello) st')
       = 1%nat
    /\ Stats.total_tokens_used
         (stats (fun _ => 0%Q) (fun q => q)
            (Request.mk (Some Demo.alice) Demo.hello) st')
       = 12%Z.
Proof.
  eexists _, _.
  match goal with
  | |- ?A /\ _ => assert (Hchat : A) by (vm_compute; reflexivity)
  end.
  split; [exact Hchat|].
  destruct (chat_adds_one_request_to_stats Demo.clock Demo.uuid4
              Demo.new_session_key Demo.post_ok (fun _ => 0%Q) (fun q => q)
              (Request.mk (Some Demo.alice) Demo.hello) Demo.alice Demo.empty
              (ValidatedData.mk "Hello" None (7 # 10) 1000) _ _
              eq_refl eq_refl Hchat)
    as (Hrequests & Htokens & _).
  split; [exact Hrequests | exact Htokens].
Defined.

(** *** Who sees which message *)

Lemma unique_ids_inj (rows : list Conversation.t) (c c' : Conversation.t) :
  NoDup (map Conversation.id rows) ->
  c ∈ rows -> c' ∈ rows -> Conversation.id c = Conversation.id c' -> c = c'.
Proof.
  induction rows as [|x rows IH]; intros Hnodup Hc Hc' Hid.
  - now apply elem_of_nil in Hc.
  - cbn in Hnodup. apply NoDup_cons in Hnodup. destruct Hnodup as [Hx Hnodup].
    apply elem_of_cons in Hc, Hc'.
    assert (Hmem : forall y, y ∈ rows ->
                     Conversation.id y ∈ map Conversation.id rows).
    { intros y Hy. apply list_elem_of_In, in_map, list_elem_of_In, Hy. }
    destruct Hc as [->|Hc], Hc' as [->|Hc'].
    + reflexivity.
    + exfalso. apply Hx. rewrite Hid. now apply Hmem.
    + exfalso. apply Hx. rewrite <- Hid. now apply Hmem.
    + now apply IH.
Qed.

Lemma listed_message (owned : Conversation.t -> bool) (st : State)
    (m : Message.t) :
  m ∈ order_by Message.created_at
        (filter (fun m => existsb (fun c => has_id (Message.conversation m) c
                                            && owned c)
                            (tbl_conversations st) = true)
           (tbl_messages st))
  <-> m ∈ tbl_messages st
      /\ exists c, c ∈ tbl_conversations st
                   /\ Conversation.id c = Message.conversation m
                   /\ owned c = true.
Proof.
  rewrite BackendFacts.order_by_elem, list_elem_of_filter, existsb_exists.
  split.
  - intros [(c & Hin & Hc) Hm]. split; [exact Hm|].
    apply andb_true_iff in Hc. destruct Hc as [Hid Hown].
    exists c. split; [now apply list_elem_of_In|].
    split; [now apply String.eqb_eq | exact Hown].
  - intros [Hm (c & Hin & Hid & Hown)]. split; [|exact Hm].
    exists c. split; [now apply list_elem_of_In|].
    apply andb_true_iff. split; [now apply String.eqb_eq | exact Hown].
Qed.

(** X13.  A message listed for an authenticated user by the message view
    set is a stored message of a stored conversation; when no two
    conversations share an identifier, that conversation belongs to the
    user, and the message is listed for no other user. *)
Theorem messages_of_other_users_are_not_listed
    (st : State) (u : User.t) (data : ChatRequest.t) (m : Message.t) :
  unique_ids st ->
  m ∈ MessageViewSet_get_queryset (Request.mk (Some u) data) st ->
  m ∈ tbl_messages st
  /\ (exists c, c ∈ tbl_conversations st
                /\ Conversation.id c = Message.conversation m)
  /\ (forall c, c ∈ tbl_conversations st ->
                Conversation.id c = Message.conversation m ->
                Conversation.user c = Some (User.id u))
  /\ (forall (w : User.t) (data' : ChatRequest.t),
         User.id w <> User.id u ->
         m ∉ MessageViewSet_get_queryset (Request.mk (Some w) data') st).
Proof.
  intros Hunique Hlisted.
  unfold MessageViewSet_get_queryset in *. cbn [Request.user] in *.
  apply listed_message in Hlisted.
  destruct Hlisted as (Hm & c & Hc & Hid & Hown).
  unfold owned_by_user in Hown. apply bool_decide_eq_true in Hown.
  assert (Hall : forall c', c' ∈ tbl_conversations st ->
                   Conversation.id c' = Message.conversation m ->
                   Conversation.user c' = Some (User.id u)).
  { intros c' Hc' Hid'.
    now rewrite (unique_ids_inj _ c' c Hunique Hc' Hc) by congruence. }
  split; [exact Hm|]. split; [eauto|]. split; [exact Hall|].
  intros w data' Hother Hlisted. apply listed_message in Hlisted.
  destruct Hlisted as (_ & c' & Hc' & Hid' & Hown').
  unfold owned_by_user in Hown'. apply bool_decide_eq_true in Hown'.
  rewrite (Hall c' Hc' Hid') in Hown'. congruence.
Qed.

(** Bob's third message is listed for Bob and not for Alice. *)
Lemma messages_of_other_users_are_not_listed_witness :
  Message.mk "m-3" "c-bob" "What is Rocq?" "user" [] 17
    ∈ tbl_messages Demo.bobs_busy_state
  /\ Message.mk "m-3" "c-bob" "What is Rocq?" "user" [] 17
       ∉ MessageViewSet_get_queryset (Request.mk (Some Demo.alice) Demo.hello)
           Demo.bobs_busy_state.
Proof.
  assert (Hunique : unique_ids Demo.bobs_busy_state)
    by (repeat constructor; apply not_elem_of_nil).
  assert (Hlisted : Message.mk "m-3" "c-bob" "What is Rocq?" "user" [] 17
                      ∈ MessageViewSet_get_queryset
                          (Request.mk (Some Demo.bob) Demo.hello)
                          Demo.bobs_busy_state)
    by (apply list_elem_of_In; vm_compute; auto).
  destruct (messages_of_other_users_are_not_listed Demo.bobs_busy_state
              Demo.bob Demo.hello _ Hunique Hlisted)
    as (Hstored & _ & _ & Hothers).
  split; [exact Hstored|]. apply Hothers. discriminate.
Defined.

Lemma existsb_owned_touch (owned : Conversation.t -> bool) (pk pk' : string)
    (t : Z) (rows : list Conversation.t) :
  (forall c t, owned (Conversation.set_updated_at t c) = owned c) ->
  existsb (fun c => has_id pk c && owned c)
    (map (fun c => if String.eqb (Conversation.id c) pk'
                   then Conversation.set_updated_at t c else c) rows)
  = existsb (fun c => has_id pk c && owned c) rows.
Proof.
  intros Howned. induction rows as [|c rows IH]; simpl; [reflexivity|].
  rewrite IH. destruct (String.eqb (Conversation.id c) pk'); [|reflexivity].
  now rewrite Howned.
Qed.

Section Visibility.

Variable clock : nat -> Z.
Variable uuid4 : nat -> string.
Variable new_session_key : nat -> string.
Variable post : ChatPayload.t -> HttpOutcome.

Local Abbreviation chat := (chat clock uuid4 new_session_key post).

Lemma guest_session_key (st : State) :
  (forall n, new_session_key n <> "") ->
  truthy (Session.session_key
            (session (snd (get_or_create_guest_session uuid4 new_session_key st))))
  = true.
Proof.
  intros Hkey. unfold get_or_create_guest_session.
  rewrite run_bind. unfold get at 1. rewrite run_bind.
  destruct (truthy (Session.session_key (session st))) eqn:Hk;
    [rewrite run_ret | unfold session_create]; rewrite run_bind; unfold get at 1;
    cbn [session set_session set_draws Session.data]; cbv zeta;
    destruct (truthy (Session.data (session st) !! "guest_session_id"));
    cbn; try exact Hk;
    cbv -[String.eqb lookup insert];
    match goal with
    | |- context [String.eqb ?a ?b] =>
        destruct (String.eqb_spec a b) as [H|H];
        [exact (False_ind _ (Hkey _ H)) | reflexivity]
    end.
Qed.

(** A validated chat either finds no conversation, or runs the turn on a
    stored conversation of the caller, whose guest session id, if any, is
    the one kept in the session. *)
Lemma chat_run_owned (request : Request.t) (st : State) (v : ValidatedData.t) :
  (forall n, uuid4 n <> "") ->
  (forall n, new_session_key n <> "") ->
  ChatRequestSerializer.is_valid (Request.data request) = inr v ->
  (exists st1,
      chat request st
      = (Raises (Http404 "No Conversation matches the given query."), st1))
  \/ exists guest conversation st2,
       conversation ∈ tbl_conversations st2
       /\ tbl_messages st2 = tbl_messages st
       /\ tbl_api_usage st2 = tbl_api_usage st
       /\ match Request.user request with
          | Some u =>
              guest = None
              /\ Conversation.user conversation = Some (User.id u)
          | None =>
              exists sid,
                guest = Some sid
                /\ Conversation.guest_session_id conversation = Some sid
                /\ stored_guest_session st2 = Some sid
          end
       /\ chat request st
          = chat_turn clock uuid4 post (clock (ticks st))
              (Request.user request) guest (ValidatedData.message v)
              (ValidatedData.temperature v) (ValidatedData.max_tokens v)
              conversation st2.
Proof.
  intros Huuid Hkey Hvalid.
  destruct (BackendFacts.run_chat_valid clock uuid4 new_session_key post
              request st v Hvalid)
    as (guest & st1 & Hid & (Hc & Hm & Hu) & Hres).
  assert (Hstored : match Request.user request with
                    | Some _ => guest = None
                    | None =>
                        exists sid, guest = Some sid
                                    /\ stored_guest_session st1 = Some sid
                    end).
  { destruct (Request.user request).
    - now destruct Hid.
    - destruct Hid as (sid & st0 & -> & Hrun & ->). exists sid.
      split; [reflexivity|].
      destruct (BackendFacts.guest_session_stored uuid4 new_session_key
                  st st0 sid Huuid Hrun) as [Hne Hdata].
      pose proof (guest_session_key st Hkey) as Hk. rewrite Hrun in Hk.
      unfold stored_guest_session. cbn [session set_ticks snd] in *.
      rewrite Hk, Hdata, BackendFacts.truthy_some by exact Hne. reflexivity. }
  clear Hid.
  destruct (ValidatedData.conversation_id v) as [cid|].
  - destruct (filter _ _) as [|conversation rest] eqn:Hfilter.
    + left. eauto.
    + right. exists guest, conversation, st1.
      assert (Hin : conversation ∈ conversation :: rest)
        by (apply elem_of_cons; now left).
      rewrite <- Hfilter in Hin. apply list_elem_of_filter in Hin.
      destruct Hin as [Hlookup Hin].
      split; [exact Hin|]. split; [exact Hm|]. split; [exact Hu|].
      split; [|exact Hres].
      destruct (Request.user request) as [u|].
      * apply andb_true_iff in Hlookup. destruct Hlookup as [_ Hown].
        unfold owned_by_user in Hown. apply bool_decide_eq_true in Hown.
        auto.
      * destruct Hstored as (sid & -> & Hs). exists sid.
        apply andb_true_iff in Hlookup. destruct Hlookup as [_ Hown].
        apply bool_decide_eq_true in Hown. auto.
  - right. cbv zeta in Hres. eexists guest, _, _.
    split; [|split; [|split; [|split]]].
    5: exact Hres.
    + cbn [tbl_conversations]. apply elem_of_app. right.
      apply elem_of_cons. now left.
    + exact Hm.
    + exact Hu.
    + cbn [Conversation.user Conversation.guest_session_id].
      destruct (Request.user request) as [u|].
      * auto.
      * destruct Hstored as (sid & -> & Hs). exists sid. auto.
Qed.

(** X14.  What a chat writes for a caller, the read-only view sets show to
    that caller: the messages appended by a chat that passes validation and
    resolves its conversation (one on a failure of the service, two on
    success) are listed by the message view set, and the usage record is
    listed by the usage view set, for the same user or, for a guest, in the
    same session.  The identifiers and session keys drawn are assumed not
    to be empty. *)
Theorem chat_results_are_visible_to_the_caller
    (request : Request.t) (st : State) (v : ValidatedData.t)
    (response : Response.t) (st' : State) :
  (forall n, uuid4 n <> "") ->
  (forall n, new_session_key n <> "") ->
  ChatRequestSerializer.is_valid (Request.data request) = inr v ->
  chat request st = (Returns response, st') ->
  exists new ur,
    tbl_messages st' = tbl_messages st ++ new
    /\ new <> []
    /\ Forall (fun m => m ∈ MessageViewSet_get_queryset request st') new
    /\ tbl_api_usage st' = tbl_api_usage st ++ [ur]
    /\ ur ∈ APIUsageViewSet_get_queryset request st'.
Proof.
  intros Huuid Hkey Hvalid Hchat.
  destruct (chat_run_owned request st v Huuid Hkey Hvalid)
    as [(st1 & Hraise)
       |(guest & conversation & st2 & Hin & Hm & Hu & Hown & Hturn)].
  { rewrite Hraise in Hchat. discriminate. }
  rewrite Hturn,
    (BackendFacts.run_chat_turn _ _ _ _ _ _ _ _ _ _ _
       (BackendFacts.existsb_has_id _ _ Hin)) in Hchat.
  cbv zeta in Hchat.
  assert (Hlisted : forall (s : State) (m : Message.t),
             m ∈ tbl_messages s ->
             Message.conversation m = Conversation.id conversation ->
             session s = session st2 ->
             (forall owned,
                 (forall c t, owned (Conversation.set_updated_at t c) = owned c) ->
                 forall pk,
                 existsb (fun c => has_id pk c && owned c) (tbl_conversations s)
                 = existsb (fun c => has_id pk c && owned c)
                     (tbl_conversations st2)) ->
             m ∈ MessageViewSet_get_queryset request s).
  { intros s m Hs Hconv Hsession Hrows.
    assert (Hfound : forall owned,
               owned conversation = true ->
               existsb (fun c => has_id (Message.conversation m) c && owned c)
                 (tbl_conversations st2) = true).
    { intros owned Howned. apply existsb_exists. exists conversation.
      split; [now apply list_elem_of_In|].
      apply andb_true_iff. split; [|exact Howned].
      unfold has_id. rewrite Hconv. apply String.eqb_refl. }
    unfold MessageViewSet_get_queryset.
    destruct (Request.user request) as [u|].
    - destruct Hown as [_ Hown].
      apply BackendFacts.order_by_elem, list_elem_of_filter.
      split; [|exact Hs].
      rewrite Hrows by reflexivity. apply Hfound.
      unfold owned_by_user. now apply bool_decide_eq_true.
    - destruct Hown as (sid & _ & Hown & Hstored).
      assert (Hs' : stored_guest_session s = Some sid)
        by (unfold stored_guest_session in *; now rewrite Hsession).
      rewrite Hs'.
      apply BackendFacts.order_by_elem, list_elem_of_filter.
      split; [|exact Hs].
      rewrite Hrows by reflexivity. apply Hfound.
      unfold owned_by_guest. now apply bool_decide_eq_true. }
  assert (Husage : forall (s : State) (ur : APIUsage.t),
             ur ∈ tbl_api_usage s ->
             APIUsage.user ur = User.id <$> Request.user request ->
             APIUsage.guest_session_id ur = guest ->
             session s = session st2 ->
             ur ∈ APIUsageViewSet_get_queryset request s).
  { intros s ur Hs Huser Hguest Hsession.
    unfold APIUsageViewSet_get_queryset.
    destruct (Request.user request) as [u|].
    - apply BackendFacts.order_by_elem, list_elem_of_filter.
      split; [exact Huser | exact Hs].
    - destruct Hown as (sid & -> & _ & Hstored).
      assert (Hs' : stored_guest_session s = Some sid)
        by (unfold stored_guest_session in *; now rewrite Hsession).
      rewrite Hs'.
      apply BackendFacts.order_by_elem, list_elem_of_filter.
      split; [exact Hguest | exact Hs]. }
  destruct (gateway_result _) as [[content r]|e]; injection Hchat as <- <-.
  - eexists [_; _], _. cbn [tbl_messages tbl_api_usage]. rewrite Hm, Hu.
    split; [now rewrite <- app_assoc|]. split; [discriminate|].
    split; [|split; [reflexivity|]].
    + repeat constructor.
      * apply Hlisted; cbn [tbl_messages tbl_conversations session Message.conversation];
          [ rewrite !elem_of_app, !list_elem_of_singleton; auto
          | reflexivity | reflexivity |].
        intros owned Howned pk. now rewrite !existsb_owned_touch.
      * apply Hlisted; cbn [tbl_messages tbl_conversations session Message.conversation];
          [ rewrite !elem_of_app, !list_elem_of_singleton; auto
          | reflexivity | reflexivity |].
        intros owned Howned pk. now rewrite !existsb_owned_touch.
    + apply Husage; cbn [tbl_api_usage session APIUsage.user APIUsage.guest_session_id];
        [ rewrite !elem_of_app, !list_elem_of_singleton; auto
        | reflexivity | reflexivity | reflexivity ].
  - eexists [_], _. cbn [tbl_messages tbl_api_usage]. rewrite Hm, Hu.
    split; [reflexivity|]. split; [discriminate|].
    split; [|split; [reflexivity|]].
    + repeat constructor.
      apply Hlisted; cbn [tbl_messages tbl_conversations session Message.conversation];
        [ rewrite !elem_of_app, !list_elem_of_singleton; auto
        | reflexivity | reflexivity |].
      intros owned Howned pk. now rewrite !existsb_owned_touch.
    + apply Husage; cbn [tbl_api_usage session APIUsage.user APIUsage.guest_session_id];
        [ rewrite !elem_of_app, !list_elem_of_singleton; auto
        | reflexivity | reflexivity | reflexivity ].
Qed.

End Visibility.

Lemma demo_session_key_nonempty (n : nat) : Demo.new_session_key n <> "".
Proof. discriminate. Qed.

(** A guest says "Hello" and then finds both messages and the usage record. *)
Lemma chat_results_are_visible_to_the_caller_witness :
  exists response st' new ur,
    Backend.chat Demo.clock Demo.uuid4 Demo.new_session_key Demo.post_ok
      (Request.mk None Demo.hello) Demo.empty
    = (Returns response, st')
    /\ tbl_messages st' = new
    /\ Forall (fun m =>
                 m ∈ MessageViewSet_get_queryset (Request.mk None Demo.hello) st')
         new
    /\ tbl_api_usage st' = [ur]
    /\ ur ∈ APIUsageViewSet_get_queryset (Request.mk None Demo.hello) st'.
Proof.
  eexists _, _.
  match goal with
  | |- exists new ur, ?A /\ _ =>
      assert (Hchat : A) by (vm_compute; reflexivity)
  end.
  destruct (chat_results_are_visible_to_the_caller Demo.clock Demo.uuid4
              Demo.new_session_key Demo.post_ok
              (Request.mk None Demo.hello) Demo.empty
              (ValidatedData.mk "Hello" None (7 # 10) 1000) _ _
              BackendFacts.demo_uuid4_nonempty demo_session_key_nonempty
              eq_refl Hchat)
    as (new & ur & Hnew & _ & Hlisted & Hur & Hshown).
  exists new, ur. split; [exact Hchat|]. split; [exact Hnew|].
  split; [exact Hlisted|]. split; [exact Hur | exact Hshown].
Defined.

(** *** Identifiers and roles *)

Section Keys.

Variable clock : nat -> Z.
Variable uuid4 : nat -> string.
Variable new_session_key : nat -> string.
Variable post : ChatPayload.t -> HttpOutcome.

Local Abbreviation chat := (chat clock uuid4 new_session_key post).

Lemma chat_turn_ids start_time user guest message temperature max_tokens
    (conversation : Conversation.t) (st : State) :
  existsb (fun c => String.eqb (Conversation.id c) (Conversation.id conversation))
    (tbl_conversations st) = true ->
  map Conversation.id
    (tbl_conversations
       (snd (chat_turn clock uuid4 post start_time user guest message
               temperature max_tokens conversation st)))
  = map Conversation.id (tbl_conversations st).
Proof.
  intros Hfk. rewrite (BackendFacts.run_chat_turn _ _ _ _ _ _ _ _ _ _ _ Hfk).
  cbv zeta. destruct (gateway_result _) as [[content r]|e];
    cbn [snd tbl_conversations]; now rewrite ?ids_touch.
Qed.

(** X15.  A chat keeps the identifiers of the conversations distinct, as
    long as the identifiers drawn from now on are not those of stored
    conversations. *)
Theorem chat_keeps_ids_unique (request : Request.t) (st : State) :
  (forall n c, (draws st <= n)%nat -> c ∈ tbl_conversations st ->
               Conversation.id c <> uuid4 n) ->
  unique_ids st ->
  unique_ids (snd (chat request st)).
Proof.
  intros Hfresh Hunique.
  destruct (ChatRequestSerializer.is_valid (Request.data request))
    as [errors|v] eqn:Hvalid.
  { now rewrite (BackendFacts.run_chat_invalid _ _ _ _ _ _ _ Hvalid). }
  destruct (BackendFacts.run_chat_valid clock uuid4 new_session_key post
              request st v Hvalid)
    as (guest & st1 & Hid & (Hc & _ & _) & Hres).
  assert (Hdraws : (draws st <= draws st1)%nat).
  { destruct (Request.user request).
    - destruct Hid as [_ ->]. reflexivity.
    - destruct Hid as (sid & st0 & _ & Hrun & ->).
      destruct (BackendFacts.run_guest_session uuid4 new_session_key st)
        as (sid' & st0' & Hrun' & _ & _ & Hle & _).
      rewrite Hrun in Hrun'. injection Hrun' as <- <-. exact Hle. }
  unfold unique_ids in *.
  destruct (ValidatedData.conversation_id v) as [cid|].
  - destruct (filter _ _) as [|conversation rest] eqn:Hfilter.
    + rewrite Hres. cbn [snd]. now rewrite Hc.
    + rewrite Hres, chat_turn_ids, Hc; [exact Hunique|].
      apply BackendFacts.existsb_has_id.
      assert (Hin : conversation ∈ conversation :: rest)
        by (apply elem_of_cons; now left).
      rewrite <- Hfilter in Hin. now apply list_elem_of_filter in Hin.
  - cbv zeta in Hres. rewrite Hres, chat_turn_ids.
    + cbn [tbl_conversations]. rewrite map_app, Hc. cbn [map Conversation.id].
      apply NoDup_app. split; [exact Hunique|]. split.
      * intros pk Hpk Hnew. apply list_elem_of_singleton in Hnew. subst pk.
        apply list_elem_of_In, in_map_iff in Hpk.
        destruct Hpk as (c & Hpk & Hin).
        apply (Hfresh (draws st1) c Hdraws); [now apply list_elem_of_In|].
        exact Hpk.
      * apply NoDup_singleton.
    + cbn [tbl_conversations]. apply BackendFacts.existsb_has_id, elem_of_app.
      right. apply elem_of_cons. now left.
Qed.

(** X16.  Whatever the request, a chat stores at most two messages, the
    first one with the role 'user', and each with a role that
    [validate_role] accepts. *)
Theorem chat_stores_valid_roles (request : Request.t) (st : State) :
  exists new,
    tbl_messages (snd (chat request st)) = tbl_messages st ++ new
    /\ (length new <= 2)%nat
    /\ Forall (fun m => validate_role (Message.role m) = inr (Message.role m))
         new
    /\ (forall m, head new = Some m -> Message.role m = "user").
Proof.
  destruct (ChatRequestSerializer.is_valid (Request.data request))
    as [errors|v] eqn:Hvalid.
  { rewrite (BackendFacts.run_chat_invalid _ _ _ _ _ _ _ Hvalid).
    exists []. cbn. rewrite app_nil_r. repeat split; [lia | constructor |].
    discriminate. }
  destruct (chat_run_full clock uuid4 new_session_key post request st v Hvalid)
    as [(st1 & cid & _ & (_ & Hm & _) & Hraise)
       |(guest & conversation & st2 & Hfk & Hm & _ & _ & _ & _ & Hturn)].
  { rewrite Hraise. exists []. cbn [snd]. rewrite Hm, app_nil_r.
    repeat split; [cbn; lia | constructor | discriminate]. }
  rewrite Hturn, (BackendFacts.run_chat_turn _ _ _ _ _ _ _ _ _ _ _ Hfk).
  cbv zeta.
  destruct (gateway_result _) as [[content r]|e]; cbn [snd tbl_messages];
    rewrite Hm.
  - eexists [_; _]. split; [now rewrite <- app_assoc|].
    split; [cbn; lia|]. split; [repeat constructor|].
    intros m Hhead. injection Hhead as <-. reflexivity.
  - eexists [_]. split; [reflexivity|].
    split; [cbn; lia|]. split; [repeat constructor|].
    intros m Hhead. injection Hhead as <-. reflexivity.
Qed.

End Keys.

Lemma demo_uuid4_not_bobs (n : nat) (c : Conversation.t) :
  (draws Demo.bobs_state <= n)%nat ->
  c ∈ tbl_conversations Demo.bobs_state ->
  Conversation.id c <> Demo.uuid4 n.
Proof.
  intros _ Hc. apply list_elem_of_singleton in Hc. subst c.
  destruct n; discriminate.
Qed.

(** Alice opens a conversation beside Bob's. *)
Lemma chat_keeps_ids_unique_witness :
  unique_ids
    (snd (Backend.chat Demo.clock Demo.uuid4 Demo.new_session_key Demo.post_ok
            (Request.mk (Some Demo.alice) Demo.hello) Demo.bobs_state)).
Proof.
  apply chat_keeps_ids_unique.
  - exact demo_uuid4_not_bobs.
  - repeat constructor. apply not_elem_of_nil.
Defined.

(** *** The last message after a chat *)

Lemma order_by_head_least {A : Type} (key : A -> Z) (l : list A) (x : A) :
  x ∈ l ->
  (forall y, y ∈ l -> y = x \/ (key x < key y)%Z) ->
  head (order_by key l) = Some x.
Proof.
  intros Hx Hleast. pose proof (order_by_head key l) as Hhead.
  destruct (head (order_by key l)) as [x'|].
  - destruct Hhead as [Hx' Hall]. rewrite Forall_forall in Hall.
    destruct (Hleast x' Hx') as [->|Hlt]; [reflexivity|].
    specialize (Hall x Hx). lia.
  - subst l. now apply elem_of_nil in Hx.
Qed.

Section Latest.

Variable clock : nat -> Z.
Variable uuid4 : nat -> string.
Variable new_session_key : nat -> string.
Variable post : ChatPayload.t -> HttpOutcome.

Local Abbreviation chat := (chat clock uuid4 new_session_key post).

(** X19.  When the clock is strictly increasing and no stored message is
    dated after the current reading, a successful chat appends its two
    messages to the conversation it answers for: the message count grows
    by two and [last_message] is the assistant message of the response. *)
Theorem reply_becomes_the_last_message
    (request : Request.t) (st : State) (v : ValidatedData.t)
    (response : Response.t) (st' : State) (result : ChatResult.t)
    (c : Conversation.t) :
  (forall i j, (i < j)%nat -> (clock i < clock j)%Z) ->
  Forall (fun m => (Message.created_at m <= clock (ticks st))%Z)
    (tbl_messages st) ->
  ChatRequestSerializer.is_valid (Request.data request) = inr v ->
  chat request st = (Returns response, st') ->
  Response.data response = ChatBody result ->
  Conversation.id c = ChatResult.conversation_id result ->
  last_message c st' = Some (ChatResult.assistant_message result)
  /\ message_count c st' = (2 + message_count c st)%nat
  /\ related_messages (Conversation.id c) st'
     = related_messages (Conversation.id c) st
       ++ [ChatResult.user_message result; ChatResult.assistant_message result].
Proof.
  intros Hclock Hpast Hvalid Hchat Hbody Hc.
  destruct (chat_run_full clock uuid4 new_session_key post request st v Hvalid)
    as [(st1 & cid & _ & _ & Hraise)
       |(guest & conversation & st2 & Hfk & Hm & _ & _ & Hticks & _ & Hturn)].
  { rewrite Hraise in Hchat. discriminate. }
  rewrite Hturn, (BackendFacts.run_chat_turn _ _ _ _ _ _ _ _ _ _ _ Hfk)
    in Hchat.
  cbv zeta in Hchat.
  destruct (gateway_result _) as [[content r]|e]; injection Hchat as <- <-;
    cbn [Response.data] in Hbody; [|discriminate].
  injection Hbody as <-.
  cbn [ChatResult.conversation_id ChatResult.user_message
       ChatResult.assistant_message] in *.
  assert (Hrel : forall s um am,
             tbl_messages s = (tbl_messages st ++ [um]) ++ [am] ->
             Message.conversation um = Conversation.id c ->
             Message.conversation am = Conversation.id c ->
             related_messages (Conversation.id c) s
             = related_messages (Conversation.id c) st ++ [um; am]).
  { intros s um am Hs Hum Ham. unfold related_messages.
    rewrite Hs, !filter_app, <- app_assoc. f_equal.
    now rewrite !filter_cons_True. }
  match goal with
  | |- last_message c ?s = _ /\ _ =>
      pose proof (Hrel s _ _ ltac:(cbn [tbl_messages]; rewrite Hm; reflexivity)
                    (eq_sym Hc) (eq_sym Hc)) as Hrows
  end.
  unfold last_message, message_count. rewrite Hrows.
  split; [|split; [rewrite length_app; cbn; lia | reflexivity]].
  apply order_by_head_least.
  - rewrite elem_of_app. right. apply elem_of_cons. right.
    apply elem_of_cons. now left.
  - intros y Hy. rewrite elem_of_app, !elem_of_cons in Hy.
    cbn [Message.created_at].
    pose proof (Hclock (ticks st) (S (S (S (ticks st2)))) ltac:(lia)) as H1.
    pose proof (Hclock (ticks st2) (S (S (S (ticks st2)))) ltac:(lia)) as H2.
    destruct Hy as [Hy|[->|[->|Hy]]].
    + right. unfold related_messages in Hy.
      apply list_elem_of_filter in Hy. destruct Hy as [_ Hy].
      rewrite Forall_forall in Hpast. specialize (Hpast y Hy). cbn beta in Hpast. lia.
    + right. cbn [Message.created_at]. lia.
    + now left.
    + now apply elem_of_nil in Hy.
Qed.

End Latest.

Lemma demo_clock_increases (i j : nat) :
  (i < j)%nat -> (Demo.clock i < Demo.clock j)%Z.
Proof. unfold Demo.clock. lia. Qed.

(** Alice says "Hello": the last message of her conversation is the reply. *)
Lemma reply_becomes_the_last_message_witness :
  exists response st' result,
    Backend.chat Demo.clock Demo.uuid4 Demo.new_session_key Demo.post_ok
      (Request.mk (Some Demo.alice) Demo.hello) Demo.empty
    = (Returns response, st')
    /\ Response.data response = ChatBody result
    /\ last_message
         (Conversation.mk (ChatResult.conversation_id result)
            (Some "alice-id") None "Hello" 0 0) st'
       = Some (ChatResult.assistant_message result)
    /\ Message.content (ChatResult.assistant_message result) = "Hi there!".
Proof.
  eexists _, _, _.
  match goal with
  | |- ?A /\ ?B /\ _ =>
      assert (Hchat : A) by (vm_compute; reflexivity);
      assert (Hbody : B) by reflexivity
  end.
  split; [exact Hchat|]. split; [exact Hbody|].
  split; [|reflexivity].
  exact (proj1 (reply_becomes_the_last_message Demo.clock Demo.uuid4
                  Demo.new_session_key Demo.post_ok
                  (Request.mk (Some Demo.alice) Demo.hello) Demo.empty
                  (ValidatedData.mk "Hello" None (7 # 10) 1000) _ _ _
                  (Conversation.mk _ (Some "alice-id") None "Hello" 0 0)
                  demo_clock_increases ltac:(constructor) eq_refl Hchat Hbody
                  eq_refl)).
Defined.

End BackendExtras.

(** ** The two services together *)

Module ServedFacts.

Import Backend Props Deployment.

(** The ranges of the validated data. *)
Lemma validated_ranges (data : ChatRequest.t) (v : ValidatedData.t) :
  ChatRequestSerializer.is_valid data = inr v ->
  (1 <=? len (ValidatedData.message v)) = true
  /\ (len (ValidatedData.message v) <=? 2000) = true
  /\ Qle_bool 0 (ValidatedData.temperature v) = true
  /\ Qle_bool (ValidatedData.temperature v) 2 = true
  /\ (1 <=? ValidatedData.max_tokens v)%Z = true
  /\ (ValidatedData.max_tokens v <=? 4000)%Z = true.
Proof.
  intros Hvalid. apply BackendExtras.is_valid_accepts in Hvalid.
  destruct Hvalid as (Hm & _ & Ht & Hk).
  destruct (ChatRequest.message data) as [raw|]; [|discriminate].
  apply BackendExtras.message_field_accepts in Hm.
  destruct Hm as (Hfull & Hlen & _ & ->).
  apply BackendExtras.temperature_field_accepts in Ht.
  apply BackendExtras.max_tokens_field_accepts in Hk.
  split; [|split; [|split; [|split; [|split]]]].
  - apply Nat.leb_le. destruct (strip raw); [contradiction | cbn; lia].
  - now apply Nat.leb_le.
  - destruct (ChatRequest.temperature data) as [t|].
    + destruct Ht as (H0 & _ & ->). now apply Qle_bool_iff.
    + now rewrite Ht.
  - destruct (ChatRequest.temperature data) as [t|].
    + destruct Ht as (_ & H2 & ->). now apply Qle_bool_iff.
    + now rewrite Ht.
  - destruct (ChatRequest.max_tokens data) as [k|].
    + destruct Hk as (Hk & ->). apply Z.leb_le. lia.
    + now rewrite Hk.
  - destruct (ChatRequest.max_tokens data) as [k|].
    + destruct Hk as (Hk & ->). apply Z.leb_le. lia.
    + now rewrite Hk.
Qed.

(** X17.  The payload that the backend posts for a request that passed its
    validation satisfies the constraints of [ChatRequest] in the AI
    service, whatever the conversation and its history: the service never
    answers it with 422. *)
Theorem validated_payload_satisfies_the_service
    (data : ChatRequest.t) (v : ValidatedData.t)
    (conversation : Conversation.t) (st : State) :
  ChatRequestSerializer.is_valid data = inr v ->
  AIEndpoint.valid
    (request_of
       (ai_payload (ValidatedData.message v) conversation
          (ValidatedData.temperature v) (ValidatedData.max_tokens v) st))
  = true.
Proof.
  intros Hvalid.
  destruct (validated_ranges data v Hvalid) as (H1 & H2 & H3 & H4 & H5 & H6).
  unfold AIEndpoint.valid, request_of, ai_payload.
  cbn [AIEndpoint.ChatRequest.message AIEndpoint.ChatRequest.temperature
       AIEndpoint.ChatRequest.max_tokens ChatPayload.message
       ChatPayload.temperature ChatPayload.max_tokens].
  now rewrite H1, H2, H3, H4, H5, H6.
Qed.

Section Served.

Variable clock : nat -> Z.
Variable uuid4 : nat -> string.
Variable new_session_key : nat -> string.
Variable ai_clock : nat -> Z.
Variable ai_service : AIService.t.
Variable ai_ticks : nat.
Variable body_text : outcome AIEndpoint.reply -> string.

Local Abbreviation served := (Deployment.post ai_clock ai_service ai_ticks body_text).
Local Abbreviation chat := (chat clock uuid4 new_session_key served).

(** A payload within the constraints is answered 200 with the response of
    [generate_response]. *)
Lemma served_gateway_result (payload : ChatPayload.t) :
  AIEndpoint.valid (request_of payload) = true ->
  exists r,
    AIService.generate_response ai_clock ai_service
      (ChatPayload.message payload) (Wire.conversation_history payload)
      (ChatPayload.temperature payload) (ChatPayload.max_tokens payload)
      ai_ticks
    = (Returns r, S (S ai_ticks))
    /\ gateway_result (served payload)
       = Returns (AIService.ChatResponse.content r, json_of r).
Proof.
  intros Hvalid.
  destruct (AIServiceExtras.generate_response_returns ai_clock ai_service
              (ChatPayload.message payload) (Wire.conversation_history payload)
              (ChatPayload.temperature payload) (ChatPayload.max_tokens payload)
              ai_ticks) as [r Hr].
  exists r. split; [exact Hr|].
  assert (Hendpoint :
            AIEndpoint.chat_endpoint ai_clock (request_of payload) ai_service
              ai_ticks
            = (Returns (AIEndpoint.Reply200 r), S (S ai_ticks))).
  { unfold AIEndpoint.chat_endpoint. apply run_try_returns. rewrite run_bind.
    cbn [request_of AIEndpoint.ChatRequest.message
         AIEndpoint.ChatRequest.conversation_history
         AIEndpoint.ChatRequest.temperature AIEndpoint.ChatRequest.max_tokens].
    rewrite Hr. reflexivity. }
  unfold Deployment.post, AIEndpoint.post_chat.
  rewrite Hvalid, Hendpoint. reflexivity.
Qed.

(** X18.  With the AI service of this repository answering the call, a
    chat that passes validation and resolves its conversation is always
    answered 200 with a chat body: the assistant message holds the content
    returned by [generate_response], the response and the usage record
    (status 200) carry its token count.  This includes a failure of the
    model: the apology is stored as the assistant message and 20 tokens
    are counted. *)
Theorem served_chat_never_answers_500
    (request : Request.t) (st : State) (v : ValidatedData.t)
    (response : Response.t) (st' : State) :
  ChatRequestSerializer.is_valid (Request.data request) = inr v ->
  chat request st = (Returns response, st') ->
  exists result payload r,
    Response.data response = ChatBody result
    /\ Response.status_code response = 200%Z
    /\ ChatPayload.message payload = ValidatedData.message v
    /\ fst (AIService.generate_response ai_clock ai_service
              (ValidatedData.message v) (Wire.conversation_history payload)
              (ValidatedData.temperature v) (ValidatedData.max_tokens v)
              ai_ticks)
       = Returns r
    /\ Message.role (ChatResult.assistant_message result) = "assistant"
    /\ Message.content (ChatResult.assistant_message result)
       = AIService.ChatResponse.content r
    /\ ChatResult.tokens_used result = AIService.ChatResponse.tokens_used r
    /\ (exists ur,
          tbl_api_usage st' = tbl_api_usage st ++ [ur]
          /\ APIUsage.status_code ur = Some 200%Z
          /\ APIUsage.tokens_used ur = AIService.ChatResponse.tokens_used r)
    /\ (forall generate_content e,
           AIService.model ai_service = Some generate_content ->
           generate_content
             (AIService._prepare_context (Wire.conversation_history payload)
                (ValidatedData.message v))
             (AIService.GenerationConfig.mk (ValidatedData.temperature v)
                (ValidatedData.max_tokens v) (8 # 10) 40)
           = Raises e ->
           Message.content (ChatResult.assistant_message result)
           = "I apologize, but I encountered an error: " +:+ str e
             +:+ ". Please try again later."
           /\ ChatResult.tokens_used result = 20%Z).
Proof.
  intros Hvalid Hchat.
  destruct (BackendExtras.chat_run_full clock uuid4 new_session_key served
              request st v Hvalid)
    as [(st1 & cid & _ & _ & Hraise)
       |(guest & conversation & st2 & Hfk & _ & Hu & _ & _ & _ & Hturn)].
  { rewrite Hraise in Hchat. discriminate. }
  rewrite Hturn, (BackendFacts.run_chat_turn _ _ _ _ _ _ _ _ _ _ _ Hfk)
    in Hchat.
  cbv zeta in Hchat.
  match type of Hchat with
  | context [gateway_result (Deployment.post _ _ _ _ ?p)] =>
      set (payload := p) in *
  end.
  assert (Hpayload : AIEndpoint.valid (request_of payload) = true).
  { destruct (validated_ranges _ v Hvalid) as (H1 & H2 & H3 & H4 & H5 & H6).
    unfold AIEndpoint.valid, request_of, payload, ai_payload.
    cbn [AIEndpoint.ChatRequest.message AIEndpoint.ChatRequest.temperature
         AIEndpoint.ChatRequest.max_tokens ChatPayload.message
         ChatPayload.temperature ChatPayload.max_tokens].
    now rewrite H1, H2, H3, H4, H5, H6. }
  destruct (served_gateway_result payload Hpayload) as (r & Hr & Hg).
  rewrite Hg in Hchat. injection Hchat as <- <-.
  eexists _, payload, r.
  cbn [Response.data Response.status_code ChatResult.assistant_message
       ChatResult.tokens_used Message.role Message.content].
  split; [reflexivity|]. split; [reflexivity|]. split; [reflexivity|].
  change (ChatPayload.message payload) with (ValidatedData.message v) in Hr.
  change (ChatPayload.temperature payload) with (ValidatedData.temperature v)
    in Hr.
  change (ChatPayload.max_tokens payload) with (ValidatedData.max_tokens v)
    in Hr.
  split; [now rewrite Hr|]. split; [reflexivity|]. split; [reflexivity|].
  split; [reflexivity|].
  split; [eexists; cbn [tbl_api_usage]; rewrite Hu; repeat split|].
  intros generate_content e Hmodel Hcall.
  rewrite (AIServiceExtras.run_generate_error ai_clock ai_service _ _ _ _ _
             generate_content e Hmodel Hcall) in Hr.
  injection Hr as <-. split; reflexivity.
Qed.

End Served.

(** *** The properties on concrete requests *)

Lemma validated_payload_satisfies_the_service_witness :
  AIEndpoint.valid
    (request_of
       (ai_payload "Hello" Demo.bobs_conversation (7 # 10) 1000
          Demo.bobs_busy_state))
  = true.
Proof.
  exact (validated_payload_satisfies_the_service Demo.hello
           (ValidatedData.mk "Hello" None (7 # 10) 1000)
           Demo.bobs_conversation Demo.bobs_busy_state eq_refl).
Defined.

(** Alice says "Hello" to a service whose model raises. *)
Lemma served_chat_never_answers_500_witness :
  exists response st' result,
    Backend.chat Demo.clock Demo.uuid4 Demo.new_session_key
      (Deployment.post Demo.clock
         (AIService.mk "gemini-1.5-flash"
            (Some (fun _ _ => Raises (Exception "quota exceeded"))))
         0 (fun _ => "{}"))
      (Request.mk (Some Demo.alice) Demo.hello) Demo.empty
    = (Returns response, st')
    /\ Response.data response = ChatBody result
    /\ Response.status_code response = 200%Z
    /\ Message.content (ChatResult.assistant_message result)
       = "I apologize, but I encountered an error: quota exceeded. Please try again later.".
Proof.
  eexists _, _.
  match goal with
  | |- exists result, ?A /\ _ =>
      assert (Hchat : A) by (vm_compute; reflexivity)
  end.
  destruct (served_chat_never_answers_500 Demo.clock Demo.uuid4
              Demo.new_session_key Demo.clock
              (AIService.mk "gemini-1.5-flash"
                 (Some (fun _ _ => Raises (Exception "quota exceeded"))))
              0 (fun _ => "{}")
              (Request.mk (Some Demo.alice) Demo.hello) Demo.empty
              (ValidatedData.mk "Hello" None (7 # 10) 1000) _ _
              eq_refl Hchat)
    as (result & payload & r & Hbody & Hstatus & _ & _ & _ & _ & _ & _ & Herror).
  exists result. split; [exact Hchat|]. split; [exact Hbody|].
  split; [exact Hstatus|].
  exact (proj1 (Herror _ (Exception "quota exceeded") eq_refl eq_refl)).
Defined.

End ServedFacts.
